(** * Payment integration layer: PayOS client and payment routes

    A shallow embedding of [services/payment.py] (the [PayOSAPI] client) and
    of [routes/payment.py] (the [/payment/process], [/payment/payment-result]
    and [/payment/webhook] handlers), with the properties of the order and
    payment reconciliation that the specification states about them.

    Conventions of the embedding.
    - A Python [str] is a [string], read as its UTF-8 byte sequence, so that
      [s.encode('utf-8')] is the list of the bytes of [s].
    - A Python [int] is a [Z].
    - JSON documents and the Python values built from them are [PyVal];
      a dictionary is an association list in insertion order, looked up from
      the front.  Python floats are outside the model.
    - Code that may raise returns [Res A]: [Ok a] or [Err e] with [e] the
      exception; [try ... except Exception] is a match on that result.
    - Calls on [current_app.logger] have no effect on any value computed here
      and are left out. *)

From Stdlib Require Import ZArith List String Ascii DecimalString.
From stdpp Require Import base option list gmap strings fin_maps.

Local Open Scope Z_scope.
Set Warnings "-register-all".

(** ** SHA-256 and HMAC (FIPS 180-4, RFC 2104), as [hashlib] and [hmac] compute them *)

Module SHA256.

Definition mask32 (x : Z) : Z := Z.land x 0xffffffff.
Definition add32 (x y : Z) : Z := mask32 (x + y).
Definition rotr (n x : Z) : Z :=
  mask32 (Z.lor (Z.shiftr x n) (Z.shiftl x (32 - n))).
Definition not32 (x : Z) : Z := Z.lxor x 0xffffffff.

Definition Ch (x y z : Z) : Z := Z.lxor (Z.land x y) (Z.land (not32 x) z).
Definition Maj (x y z : Z) : Z :=
  Z.lxor (Z.lxor (Z.land x y) (Z.land x z)) (Z.land y z).
Definition bsig0 (x : Z) : Z := Z.lxor (Z.lxor (rotr 2 x) (rotr 13 x)) (rotr 22 x).
Definition bsig1 (x : Z) : Z := Z.lxor (Z.lxor (rotr 6 x) (rotr 11 x)) (rotr 25 x).
Definition ssig0 (x : Z) : Z := Z.lxor (Z.lxor (rotr 7 x) (rotr 18 x)) (Z.shiftr x 3).
Definition ssig1 (x : Z) : Z := Z.lxor (Z.lxor (rotr 17 x) (rotr 19 x)) (Z.shiftr x 10).

(** The round constants: the first thirty-two bits of the fractional parts
    of the cube roots of the first sixty-four primes. *)
Definition K : list Z :=
  [
    1116352408; 1899447441; 3049323471; 3921009573; 961987163;
    1508970993; 2453635748; 2870763221; 3624381080; 310598401;
    607225278; 1426881987; 1925078388; 2162078206; 2614888103;
    3248222580; 3835390401; 4022224774; 264347078; 604807628;
    770255983; 1249150122; 1555081692; 1996064986; 2554220882;
    2821834349; 2952996808; 3210313671; 3336571891; 3584528711;
    113926993; 338241895; 666307205; 773529912; 1294757372;
    1396182291; 1695183700; 1986661051; 2177026350; 2456956037;
    2730485921; 2820302411; 3259730800; 3345764771; 3516065817;
    3600352804; 4094571909; 275423344; 430227734; 506948616;
    659060556; 883997877; 958139571; 1322822218; 1537002063;
    1747873779; 1955562222; 2024104815; 2227730452; 2361852424;
    2428436474; 2756734187; 3204031479; 3329325298
  ].

(** The initial hash value: the same of the square roots of the first eight
    primes. *)
Definition H0 : list Z :=
  [
    1779033703; 3144134277; 1013904242; 2773480762;
    1359893119; 2600822924; 528734635; 1541459225
  ].

Definition primes : list Z :=
  [ 2; 3; 5; 7; 11; 13; 17; 19; 23; 29; 31; 37; 41; 43; 47; 53; 59; 61; 67;
    71; 73; 79; 83; 89; 97; 101; 103; 107; 109; 113; 127; 131; 137; 139; 149;
    151; 157; 163; 167; 173; 179; 181; 191; 193; 197; 199; 211; 223; 227; 229;
    233; 239; 241; 251; 257; 263; 269; 271; 277; 281; 283; 293; 307; 311 ].

(** [k] is the first thirty-two bits of the fractional part of the [e]-th
    root of [p]: for some integer part [a] below 32, the number
    [a * 2^32 + k] is the integer [e]-th root of [p * 2^(32 e)]. *)
Definition root_bits (e p k : Z) : bool :=
  existsb (fun a =>
             let x := a * 2 ^ 32 + k in
             (x ^ e <=? p * 2 ^ (32 * e)) && (p * 2 ^ (32 * e) <? (x + 1) ^ e))
          (map Z.of_nat (seq 0 32)).

(** Big-endian bytes of a number, [n] of them. *)
Fixpoint be_bytes (n : nat) (x : Z) : list Z :=
  match n with
  | O => []
  | S m => be_bytes m (Z.shiftr x 8) ++ [Z.land x 0xff]
  end.

Definition be_word (bs : list Z) : Z :=
  fold_left (fun acc b => Z.lor (Z.shiftl acc 8) (Z.land b 0xff)) bs 0.

(** The message followed by 0x80, zeros up to 56 mod 64, and the bit length
    on eight bytes. *)
Definition pad (msg : list Z) : list Z :=
  let len := Z.of_nat (length msg) in
  let zeros := Z.to_nat ((55 - len) mod 64) in
  msg ++ [0x80] ++ repeat 0 zeros ++ be_bytes 8 (8 * len).

Fixpoint chunks (fuel : nat) (k : nat) (l : list Z) : list (list Z) :=
  match fuel, l with
  | _, [] => []
  | O, _ => []
  | S f, _ => firstn k l :: chunks f k (skipn k l)
  end.

(** The sixteen words of a block extended to the sixty-four of the schedule. *)
Fixpoint extend (n : nat) (w : list Z) : list Z :=
  match n with
  | O => w
  | S m =>
      let t := length w in
      let at_ i := nth (t - i) w 0 in
      extend m (w ++ [add32 (add32 (add32 (ssig1 (at_ 2%nat)) (at_ 7%nat))
                                   (ssig0 (at_ 15%nat))) (at_ 16%nat)])
  end.

Definition schedule (block : list Z) : list Z :=
  extend 48 (map be_word (chunks 16 4 block)).

Record regs := Regs { ra : Z; rb : Z; rc : Z; rd : Z; re : Z; rf : Z; rg : Z; rh : Z }.

Definition round (r : regs) (kw : Z * Z) : regs :=
  let t1 := add32 (add32 (add32 (add32 (rh r) (bsig1 (re r))) (Ch (re r) (rf r) (rg r)))
                         (fst kw)) (snd kw) in
  let t2 := add32 (bsig0 (ra r)) (Maj (ra r) (rb r) (rc r)) in
  Regs (add32 t1 t2) (ra r) (rb r) (rc r) (add32 (rd r) t1) (re r) (rf r) (rg r).

Definition regs_of (h : list Z) : regs :=
  Regs (nth 0 h 0) (nth 1 h 0) (nth 2 h 0) (nth 3 h 0)
       (nth 4 h 0) (nth 5 h 0) (nth 6 h 0) (nth 7 h 0).

Definition list_of (r : regs) : list Z :=
  [ra r; rb r; rc r; rd r; re r; rf r; rg r; rh r].

Definition compress (h : list Z) (block : list Z) : list Z :=
  let r := fold_left round (combine K (schedule block)) (regs_of h) in
  list_of (Regs (add32 (nth 0 h 0) (ra r)) (add32 (nth 1 h 0) (rb r))
                (add32 (nth 2 h 0) (rc r)) (add32 (nth 3 h 0) (rd r))
                (add32 (nth 4 h 0) (re r)) (add32 (nth 5 h 0) (rf r))
                (add32 (nth 6 h 0) (rg r)) (add32 (nth 7 h 0) (rh r))).

Definition digest_words (msg : list Z) : list Z :=
  let p := pad msg in
  fold_left compress (chunks (length p) 64 p) H0.

(** [hashlib.sha256(msg).digest()] *)
Definition digest (msg : list Z) : list Z :=
  flat_map (be_bytes 4) (digest_words msg).

Definition block_size : nat := 64.

(** [hmac.new(key, msg, hashlib.sha256).digest()] *)
Definition hmac (key msg : list Z) : list Z :=
  let k0 := if (block_size <? length key)%nat then digest key else key in
  let k := k0 ++ repeat 0 (block_size - length k0) in
  let ipad := map (Z.lxor 0x36) k in
  let opad := map (Z.lxor 0x5c) k in
  digest (opad ++ digest (ipad ++ msg)).

Definition hex_digit (n : Z) : ascii :=
  nth (Z.to_nat (Z.land n 0xf))
      (list_ascii_of_string "0123456789abcdef") "0"%char.

Definition hex_byte (b : Z) : list ascii :=
  [hex_digit (Z.shiftr b 4); hex_digit b].

(** [.hexdigest()]: two lower-case hexadecimal digits per byte. *)
Definition hex (bs : list Z) : string :=
  string_of_list_ascii (flat_map hex_byte bs).

End SHA256.

(** [s.encode('utf-8')] *)
Definition encode_utf8 (s : string) : list Z :=
  map (fun c => Z.of_N (N_of_ascii c)) (list_ascii_of_string s).

(** [hmac.new(key, msg, hashlib.sha256).hexdigest()] *)
Definition hmac_sha256_hexdigest (key msg : list Z) : string :=
  SHA256.hex (SHA256.hmac key msg).

Local Open Scope string_scope.

(** ** Python values, exceptions and results *)

Inductive PyVal : Type :=
| PNone
| PBool (b : bool)
| PInt (z : Z)
| PStr (s : string)
| PList (l : list PyVal)
| PDict (kv : list (string * PyVal)).

(** The exception classes that the modelled code can meet.  The argument is
    a tag for the raising site, except for [KeyError], where it is the key,
    for errors raised by the source itself, where it is the message, and
    for werkzeug's [HTTPException], where it is the status code. *)
Inductive Exn : Type :=
| TypeError (what : string)
| ValueError (what : string)
| KeyError (key : string)
| AttributeError (what : string)
| RequestException (what : string)
| DatabaseError (what : string)
| HTTPException (code : Z).

Inductive Res (A : Type) : Type :=
| Ok (a : A)
| Err (e : Exn).
Arguments Ok {A} a.
Arguments Err {A} e.

#[global] Instance Res_ret : MRet Res := fun A a => Ok a.
#[global] Instance Res_bind : MBind Res :=
  fun A B f m => match m with Ok a => f a | Err e => Err e end.

(** What the modelled code asks of the Python runtime and of the database
    driver, and whose answer is fixed outside this repository.  Every
    theorem below holds for each implementation of this interface. *)
Class PyRuntime : Type := {
  (** [int(s)] for a [str] *)
  int_of_str : string -> Res Z;
  (** [str(e)] for an exception *)
  exn_str : Exn -> string;
  (** [str(v)] for a list or a dictionary *)
  py_repr : PyVal -> string;
  (** [json.dumps(v, separators=(',', ':'), sort_keys=True)] *)
  json_dumps : PyVal -> Res string;
  (** the integer a value that is neither an [int] nor a [bool] stands for
      when the database compares it with an integer key *)
  sql_coerce : PyVal -> Res Z
}.

(** Truth value of a Python object: [bool(v)]. *)
Definition py_truthy (v : PyVal) : bool :=
  match v with
  | PNone => false
  | PBool b => b
  | PInt z => negb (z =? 0)%Z
  | PStr s => negb (String.eqb s "")
  | PList l => match l with [] => false | _ => true end
  | PDict kv => match kv with [] => false | _ => true end
  end.

Definition py_not (v : PyVal) : bool := negb (py_truthy v).

Fixpoint assoc (k : string) (kv : list (string * PyVal)) : option PyVal :=
  match kv with
  | [] => None
  | (k', v) :: rest => if String.eqb k k' then Some v else assoc k rest
  end.

(** [d.get(k, dflt)] *)
Definition py_get (d : PyVal) (k : string) (dflt : PyVal) : Res PyVal :=
  match d with
  | PDict kv => Ok (default dflt (assoc k kv))
  | _ => Err (AttributeError "get")
  end.

(** [d[k]] for a string key [k] *)
Definition py_getitem (d : PyVal) (k : string) : Res PyVal :=
  match d with
  | PDict kv =>
      match assoc k kv with
      | Some v => Ok v
      | None => Err (KeyError k)
      end
  | _ => Err (TypeError "subscript")
  end.

(** [v == s] for a string literal [s] *)
Definition py_eq_str (v : PyVal) (s : string) : bool :=
  match v with
  | PStr t => String.eqb t s
  | _ => false
  end.

Definition string_of_Z (z : Z) : string := NilZero.string_of_int (Z.to_int z).

Section Runtime.
Context `{PyRuntime}.

(** [int(v)] *)
Definition py_int (v : PyVal) : Res Z :=
  match v with
  | PNone => Err (TypeError "int")
  | PBool b => Ok (Z.b2z b)
  | PInt z => Ok z
  | PStr s => int_of_str s
  | PList _ => Err (TypeError "int")
  | PDict _ => Err (TypeError "int")
  end.

(** [str(v)], which is also what an f-string puts for [{v}] *)
Definition py_str (v : PyVal) : string :=
  match v with
  | PNone => "None"
  | PBool true => "True"
  | PBool false => "False"
  | PInt z => string_of_Z z
  | PStr s => s
  | PList _ => py_repr v
  | PDict _ => py_repr v
  end.

End Runtime.

(** ** [services/payment.py]: the PayOS client *)

(** The attributes of a [PayOSAPI] object.  [checksum_key] is the only one
    the methods test for absence. *)
Record PayOSAPI : Type := {
  api_key : string;
  client_id : string;
  checksum_key : option string;
  api_base_url : string
}.

(** [os.environ] and [current_app.config], restricted to string values. *)
Record Settings : Type := {
  environ : gmap string string;
  app_config : gmap string string
}.

Definition nonempty (o : option string) : option string :=
  match o with
  | Some s => if String.eqb s "" then None else Some s
  | None => None
  end.

(** [os.environ.get(k) or current_app.config.get(k)] *)
Definition env_or_config (st : Settings) (k : string) : option string :=
  match nonempty (environ st !! k) with
  | Some v => Some v
  | None => app_config st !! k
  end.

(** [os.environ.get(k) or current_app.config.get(k, dflt)] *)
Definition env_or_config_default (st : Settings) (k dflt : string) : string :=
  match nonempty (environ st !! k) with
  | Some v => v
  | None => default dflt (app_config st !! k)
  end.

(** [PayOSAPI.__init__] *)
Definition PayOSAPI_init (st : Settings) : Res PayOSAPI :=
  let api_key := env_or_config st "PAYOS_API_KEY" in
  let client_id := env_or_config st "PAYOS_CLIENT_ID" in
  let checksum_key := env_or_config st "PAYOS_SECRET_KEY" in
  let api_base_url :=
    env_or_config_default st "PAYOS_API_URL" "https://api-merchant.payos.vn" in
  match nonempty api_key with
  | None =>
      Err (ValueError "Missing PAYOS_API_KEY. Please set it in your environment or config.")
  | Some ak =>
      match nonempty client_id with
      | None =>
          Err (ValueError "Missing PAYOS_CLIENT_ID. Please set it in your environment or config.")
      | Some ci =>
          match nonempty checksum_key with
          | None =>
              Err (ValueError "Missing PAYOS_SECRET_KEY. Please set it in your environment or config.")
          | Some ck =>
              Ok {| api_key := ak; client_id := ci; checksum_key := Some ck;
                    api_base_url := api_base_url |}
          end
      end
  end.

(** The arguments of [requests.post(url, headers=..., json=..., timeout=...)]. *)
Record HttpRequest : Type := {
  req_url : string;
  req_headers : list (string * string);
  req_json : PyVal;
  req_timeout : Z
}.

(** What the code reads of a [requests] response; [json] is the outcome of
    [response.json()], an error when the body is not JSON. *)
Record HttpResponse : Type := {
  status_code : Z;
  text : string;
  json : Res PyVal
}.

(** The behaviour of the HTTP transport: an exception (connection refused,
    timeout, ...) or a response. *)
Definition Transport : Type := HttpRequest -> Res HttpResponse.

Fixpoint header (name : string) (hs : list (string * string)) : option string :=
  match hs with
  | [] => None
  | (n, v) :: rest => if String.eqb name n then Some v else header name rest
  end.

Section Client.
Context `{PyRuntime}.

(** The [payment_data] dictionary of [create_payment]. *)
Definition payment_data (order_id : PyVal) (order_code amount : Z) : PyVal :=
  PDict
    [ ("orderCode", PInt order_code);
      ("amount", PInt amount);
      ("description", PStr ("Order #" +:+ py_str order_id));
      ("returnUrl", PStr "http://127.0.0.1:5000/payment/success");
      ("cancelUrl", PStr "http://127.0.0.1:5000/payment/cancel");
      ("items",
       PList [ PDict [ ("name", PStr ("Order #" +:+ py_str order_id));
                       ("price", PInt amount);
                       ("quantity", PInt 1) ] ]) ].

(** The f-string [signature_str] of [create_payment]. *)
Definition signature_str (payment_data : PyVal) : Res string :=
  amount ← py_getitem payment_data "amount";
  cancel ← py_getitem payment_data "cancelUrl";
  description ← py_getitem payment_data "description";
  order_code ← py_getitem payment_data "orderCode";
  return_url ← py_getitem payment_data "returnUrl";
  mret ("amount=" +:+ py_str amount
        +:+ "&cancelUrl=" +:+ py_str cancel
        +:+ "&description=" +:+ py_str description
        +:+ "&orderCode=" +:+ py_str order_code
        +:+ "&returnUrl=" +:+ py_str return_url).

(** [self.checksum_key.encode('utf-8')] *)
Definition checksum_key_bytes (self : PayOSAPI) : Res (list Z) :=
  match checksum_key self with
  | Some k => Ok (encode_utf8 k)
  | None => Err (AttributeError "encode")
  end.

(** [create_payment] up to the call of [requests.post]: the request it
    sends.  The [description] argument is not read. *)
Definition create_payment_request (self : PayOSAPI)
    (order_id amount description : PyVal) : Res HttpRequest :=
  amount ← py_int amount;
  order_code ← py_int order_id;
  let payment_data := payment_data order_id order_code amount in
  signature_str ← signature_str payment_data;
  key ← checksum_key_bytes self;
  let signature := hmac_sha256_hexdigest key (encode_utf8 signature_str) in
  mret {| req_url := api_base_url self +:+ "/v2/payment-requests";
          req_headers := [ ("Content-Type", "application/json");
                           ("x-client-id", client_id self);
                           ("x-api-key", api_key self);
                           ("x-signature", signature) ];
          req_json := payment_data;
          req_timeout := 15 |}.

(** The part of [create_payment] after the response has arrived. *)
Definition read_payment_response (response : HttpResponse) : Res PyVal :=
  response_data ← json response;
  accepted ← (if (status_code response =? 200)%Z
              then code ← py_get response_data "code" PNone;
                   mret (py_eq_str code "00")
              else mret false);
  if accepted : bool then
    data ← py_getitem response_data "data";
    payment_url ← py_getitem data "checkoutUrl";
    data ← py_getitem response_data "data";
    payment_id ← py_getitem data "paymentLinkId";
    data ← py_getitem response_data "data";
    qr_code ← py_getitem data "qrCode";
    mret (PDict [ ("success", PBool true);
                  ("payment_url", payment_url);
                  ("payment_id", payment_id);
                  ("qr_code", qr_code) ])
  else
    desc ← py_get response_data "desc" PNone;
    mret (PDict [ ("success", PBool false);
                  ("error", desc);
                  ("response", response_data) ]).

(** The body of the [try] block of [create_payment]. *)
Definition create_payment_try (self : PayOSAPI) (post : Transport)
    (order_id amount description : PyVal) : Res PyVal :=
  request ← create_payment_request self order_id amount description;
  response ← post request;
  read_payment_response response.

(** The dictionary that the [except] branch of [create_payment] returns. *)
Definition failure (e : Exn) : PyVal :=
  PDict [ ("success", PBool false);
          ("error", PStr ("Exception: " +:+ exn_str e)) ].

(** [PayOSAPI.create_payment(order_id, amount, description)] *)
Definition create_payment (self : PayOSAPI) (post : Transport)
    (order_id amount description : PyVal) : PyVal :=
  match create_payment_try self post order_id amount description with
  | Ok result => result
  | Err e => failure e
  end.

(** The body of the [try] block of [_create_signature]. *)
Definition create_signature_try (self : PayOSAPI) (data : PyVal) : Res string :=
  match nonempty (checksum_key self) with
  | None => mret ""
  | Some key =>
      data_str ← json_dumps data;
      mret (hmac_sha256_hexdigest (encode_utf8 key) (encode_utf8 data_str))
  end.

(** [PayOSAPI._create_signature(data)] *)
Definition _create_signature (self : PayOSAPI) (data : PyVal) : string :=
  match create_signature_try self data with
  | Ok signature => signature
  | Err _ => ""
  end.

End Client.

(** ** The collaborators of the routes *)

(** Modelled from the spec: the [OrderStatus] enumeration of [models/order.py],
    which is not among the sources (section 3: CREATED, PROCESSING, PAID,
    CANCELLED). *)
Inductive OrderStatus : Type := CREATED | PROCESSING | PAID | CANCELLED.

#[global] Instance OrderStatus_eq_dec : EqDecision OrderStatus.
Proof. solve_decision. Defined.

(** Modelled from the spec: a row of the [Order] model of [models/order.py]
    (section 3), with the attributes the routes read and write.  The
    identity [id] is the key of the row in the store. *)
Record Order : Type := {
  user_id : Z;
  total : Z;
  status : OrderStatus;
  payment_method : option string;
  payment_id : PyVal
}.

(** Modelled from the spec: a line of a user's cart, [models/cart.py]. *)
Record CartLine : Type := {
  product_id : Z;
  quantity : Z
}.

(** The state the handlers work on: the order table, the carts by user id,
    the calls of [Cart.clear_cart] so far (latest first), the flashed
    messages (latest first), the client cached by [get_payos_api], and the
    settings the client is built from. *)
Record World : Type := {
  orders : gmap Z Order;
  carts : gmap Z (list CartLine);
  cart_clears : list Z;
  flashes : list (string * string);
  api_cache : option PayOSAPI;
  settings : Settings
}.

Definition set_orders (f : gmap Z Order -> gmap Z Order) (w : World) : World :=
  {| orders := f (orders w); carts := carts w; cart_clears := cart_clears w;
     flashes := flashes w; api_cache := api_cache w; settings := settings w |}.

Definition set_api_cache (a : PayOSAPI) (w : World) : World :=
  {| orders := orders w; carts := carts w; cart_clears := cart_clears w;
     flashes := flashes w; api_cache := Some a; settings := settings w |}.

Definition push_flash (message category : string) (w : World) : World :=
  {| orders := orders w; carts := carts w; cart_clears := cart_clears w;
     flashes := (message, category) :: flashes w; api_cache := api_cache w;
     settings := settings w |}.

(** Modelled from the spec: [Cart.clear_cart(user_id)] of [models/cart.py]
    removes every line of that user's cart.  The call is recorded. *)
Definition clear_cart (uid : Z) (w : World) : World :=
  {| orders := orders w; carts := delete uid (carts w);
     cart_clears := uid :: cart_clears w; flashes := flashes w;
     api_cache := api_cache w; settings := settings w |}.

(** The lines in a user's cart. *)
Definition cart_of (w : World) (uid : Z) : list CartLine :=
  default [] (carts w !! uid).

Definition with_status (s : OrderStatus) (o : Order) : Order :=
  {| user_id := user_id o; total := total o; status := s;
     payment_method := payment_method o; payment_id := payment_id o |}.

Definition with_payment_id (p : PyVal) (o : Order) : Order :=
  {| user_id := user_id o; total := total o; status := status o;
     payment_method := payment_method o; payment_id := p |}.

Definition with_payment_method (m : string) (o : Order) : Order :=
  {| user_id := user_id o; total := total o; status := status o;
     payment_method := Some m; payment_id := payment_id o |}.

(** The targets of [url_for]. *)
Inductive Endpoint : Type :=
| orders_order_detail (order_id : Z)
| cart_checkout.

(** What a handler returns: [jsonify(body), code], [redirect(url_for(...))]
    or [render_template('payment/result.html', ...)]. *)
Inductive Response : Type :=
| JsonResponse (code : Z) (body : PyVal)
| Redirect (target : Endpoint)
| RenderResult (status : string) (transaction_id : string) (error : option string).

(** The parts of the application that the routes call and that are not
    among the sources: [verify_webhook] of the [PayOSAPI] class that
    [routes/payment.py] imports from [payment_providers.payos] (the class of
    [services/payment.py] has no such method), given here by the truth value
    of what it returns or the exception it raises, and Flask's [url_for]. *)
Class Collaborators : Type := {
  verify_webhook : PayOSAPI -> PyVal -> Res bool;
  url_for : Endpoint -> string
}.

(** Handler code: it reads and writes the world and may raise. *)
Definition Handler (A : Type) : Type := World -> Res A * World.

#[global] Instance Handler_ret : MRet Handler := fun A a w => (Ok a, w).
#[global] Instance Handler_bind : MBind Handler :=
  fun A B f m w =>
    match m w with
    | (Ok a, w') => f a w'
    | (Err e, w') => (Err e, w')
    end.

Definition lift {A : Type} (r : Res A) : Handler A := fun w => (r, w).
Definition modify (f : World -> World) : Handler unit := fun w => (Ok tt, f w).

(** [db.session.commit()]: the attribute writes above it are already in
    [orders]; the database is taken to accept them, as it is taken to
    answer every query and every [Cart.clear_cart]. *)
Definition commit : Handler unit := mret tt.

(** [Order.query.get(id)]: the key and the row, if there is one. *)
Definition Order_query_get (id : Z) : Handler (option (Z * Order)) :=
  fun w => (Ok (pair id <$> orders w !! id), w).

(** [order.status = s], [order.payment_id = p], [order.payment_method = m]
    on the row with key [id]. *)
Definition set_status (id : Z) (s : OrderStatus) : Handler unit :=
  modify (set_orders (alter (with_status s) id)).
Definition set_payment_id (id : Z) (p : PyVal) : Handler unit :=
  modify (set_orders (alter (with_payment_id p) id)).
Definition set_payment_method (id : Z) (m : string) : Handler unit :=
  modify (set_orders (alter (with_payment_method m) id)).

(** [get_payos_api()]: the cached client, built on first use. *)
Definition get_payos_api : Handler PayOSAPI :=
  fun w =>
    match api_cache w with
    | Some api => (Ok api, w)
    | None =>
        match PayOSAPI_init (settings w) with
        | Ok api => (Ok api, set_api_cache api w)
        | Err e => (Err e, w)
        end
    end.

(** ** [routes/payment.py]: the handlers *)

Section Routes.
Context `{PyRuntime} `{Collaborators}.

(** The integer that the database compares with the key, for the value
    given as [id=...]. *)
Definition bind_id (v : PyVal) : Res Z :=
  match v with
  | PInt z => Ok z
  | PBool b => Ok (Z.b2z b)
  | _ => sql_coerce v
  end.

(** [Order.query.filter_by(id=order_id, user_id=uid).first()] *)
Definition Order_query_filter_by (order_id : PyVal) (uid : Z)
  : Handler (option (Z * Order)) :=
  id ← lift (bind_id order_id);
  found ← Order_query_get id;
  mret (match found with
        | Some (id, o) => if decide (user_id o = uid) then Some (id, o) else None
        | None => None
        end).

(** The body of the [try] block of [process_payment], for the logged-in
    user [current_user].  [request_json] is the outcome of evaluating
    [request.json]: the parsed document, or the exception that Flask
    raises when the body is empty or is not JSON. *)
Definition process_payment_try (post : Transport) (current_user : Z)
    (request_json : Res PyVal) : Handler Response :=
  json ← lift request_json;
  let data := if py_truthy json then json else PDict [] in
  order_id ← lift (py_get data "order_id" PNone);
  payment_method ← lift (py_get data "payment_method" (PStr "payos"));
  if py_not order_id then
    mret (JsonResponse 400 (PDict [ ("success", PBool false);
                                    ("error", PStr "Missing order ID") ]))
  else
    order ← Order_query_filter_by order_id current_user;
    match order with
    | None =>
        mret (JsonResponse 404 (PDict [ ("success", PBool false);
                                        ("error", PStr "Order not found") ]))
    | Some (id, o) =>
        if py_eq_str payment_method "payos" then
          api ← get_payos_api;
          let amount := PInt (total o) in
          let description := PStr ("Payment for order " +:+ string_of_Z id) in
          let result :=
            create_payment api post (PStr (py_str order_id)) amount description in
          success ← lift (py_get result "success" PNone);
          if py_not success then
            error ← lift (py_get result "error" (PStr "Payment initialization failed"));
            mret (JsonResponse 400 (PDict [ ("success", PBool false);
                                            ("error", error) ]))
          else
            set_payment_method id "payos";;
            commit;;
            payment_url ← lift (py_get result "payment_url" PNone);
            mret (JsonResponse 200 (PDict [ ("success", PBool true);
                                            ("redirect_url", payment_url);
                                            ("requires_redirect", PBool true) ]))
        else if py_eq_str payment_method "cod" then
          set_payment_method id "cod";;
          set_status id PROCESSING;;
          commit;;
          modify (clear_cart current_user);;
          mret (JsonResponse 200
                  (PDict [ ("success", PBool true);
                           ("redirect_url", PStr (url_for (orders_order_detail id)));
                           ("requires_redirect", PBool false);
                           ("message", PStr "Your order has been placed successfully!") ]))
        else
          mret (JsonResponse 400 (PDict [ ("success", PBool false);
                                          ("error", PStr "Invalid payment method") ]))
    end.

(** [POST /payment/process], for a caller that [login_required] has let
    through; [handle_errors] wraps a function that lets no exception out. *)
Definition process_payment (post : Transport) (current_user : Z)
    (request_json : Res PyVal) (w : World) : Response * World :=
  match process_payment_try post current_user request_json w with
  | (Ok r, w') => (r, w')
  | (Err _, w') =>
      (JsonResponse 500
         (PDict [ ("success", PBool false);
                  ("error", PStr "An error occurred while processing your payment") ]),
       w')
  end.

(** The query string of [GET /payment/payment-result]; an absent parameter
    is [None]. *)
Record ResultArgs : Type := {
  arg_status : option string;
  arg_orderCode : option string;
  arg_errorCode : option string;
  arg_transactionId : option string
}.

(** [current_user.is_authenticated and current_user.id == uid], for the
    session user [current_user] ([None] when nobody is logged in). *)
Definition is_owner (current_user : option Z) (uid : Z) : bool :=
  match current_user with
  | Some u => bool_decide (u = uid)
  | None => false
  end.

(** The body of the [try] block of [payment_result]: the response it
    returns, or [None] when control reaches the end of the block. *)
Definition payment_result_try (current_user : option Z)
    (status order_id transaction_id : string) : Handler (option Response) :=
  id ← lift (py_int (PStr order_id));
  order ← Order_query_get id;
  match order with
  | Some (id, o) =>
      if String.eqb status "success" then
        set_status id PAID;;
        set_payment_id id (PStr transaction_id);;
        commit;;
        modify (clear_cart (user_id o));;
        if is_owner current_user (user_id o) then
          modify (push_flash "Payment successful! Your order has been confirmed." "success");;
          mret (Some (Redirect (orders_order_detail id)))
        else mret None
      else
        (if String.eqb status "cancel"
         then modify (push_flash "Payment was cancelled." "warning")
         else modify (push_flash
                "Payment failed. Please try again or choose a different payment method."
                "error"));;
        if is_owner current_user (user_id o)
        then mret (Some (Redirect cart_checkout))
        else mret None
  | None => mret None
  end.

(** [GET /payment/payment-result] *)
Definition payment_result (current_user : option Z) (args : ResultArgs)
    (w : World) : Response * World :=
  let status := default "unknown" (arg_status args) in
  let error_code := arg_errorCode args in
  let transaction_id := default "" (arg_transactionId args) in
  let page := RenderResult status transaction_id error_code in
  match nonempty (arg_orderCode args) with
  | Some order_id =>
      match payment_result_try current_user status order_id transaction_id w with
      | (Ok (Some r), w') => (r, w')
      | (Ok None, w') => (page, w')
      | (Err _, w') => (page, w')
      end
  | None => (page, w)
  end.

(** The body of the [try] block of [webhook].  [request_json] is the
    outcome of evaluating [request.json]: the parsed document, or the
    exception that Flask raises when the body is empty or is not JSON. *)
Definition webhook_try (request_json : Res PyVal) : Handler Response :=
  data ← lift request_json;
  if py_not data then
    mret (JsonResponse 400 (PDict [ ("success", PBool false);
                                    ("message", PStr "No data received") ]))
  else
    api ← get_payos_api;
    verified ← lift (verify_webhook api data);
    if negb verified then
      mret (JsonResponse 400 (PDict [ ("success", PBool false);
                                      ("message", PStr "Invalid signature") ]))
    else
      order_code ← lift (py_get data "orderCode" PNone);
      status ← lift (py_get data "status" PNone);
      if py_not order_code || py_not status then
        mret (JsonResponse 400 (PDict [ ("success", PBool false);
                                        ("message", PStr "Missing required fields") ]))
      else
        id ← lift (py_int order_code);
        order ← Order_query_get id;
        match order with
        | None =>
            mret (JsonResponse 404 (PDict [ ("success", PBool false);
                                            ("message", PStr "Order not found") ]))
        | Some (id, o) =>
            (if py_eq_str status "success" then
               set_status id PAID;;
               transaction_id ← lift (py_get data "transactionId" PNone);
               set_payment_id id transaction_id;;
               modify (clear_cart (user_id o));;
               commit
             else if py_eq_str status "failed" || py_eq_str status "cancel" then
               set_status id CANCELLED;;
               commit
             else mret tt);;
            mret (JsonResponse 200
                    (PDict [ ("success", PBool true);
                             ("message", PStr "Webhook processed successfully") ]))
        end.

(** [POST /payment/webhook] *)
Definition webhook (request_json : Res PyVal) (w : World) : Response * World :=
  match webhook_try request_json w with
  | (Ok r, w') => (r, w')
  | (Err _, w') =>
      (JsonResponse 500 (PDict [ ("success", PBool false);
                                 ("message", PStr "Error processing webhook") ]),
       w')
  end.

End Routes.

(** ** A runtime and collaborators to run the model on examples *)

Module Example_runtime.

Definition is_space (c : ascii) : bool :=
  let n := N_of_ascii c in
  ((9 <=? n) && (n <=? 13) || (28 <=? n) && (n <=? 32))%N.

Definition digit_of (c : ascii) : option Z :=
  let n := N_of_ascii c in
  if ((48 <=? n) && (n <=? 57))%N then Some (Z.of_N n - 48) else None.

Fixpoint drop_spaces (l : list ascii) : list ascii :=
  match l with
  | c :: rest => if is_space c then drop_spaces rest else l
  | [] => []
  end.

Definition strip (l : list ascii) : list ascii :=
  rev (drop_spaces (rev (drop_spaces l))).

(** Decimal digits, with single underscores between them; [after_digit]
    tells whether the previous character was a digit. *)
Fixpoint digits (acc : Z) (after_digit : bool) (l : list ascii) : option Z :=
  match l with
  | [] => if after_digit then Some acc else None
  | c :: rest =>
      match digit_of c with
      | Some d => digits (10 * acc + d) true rest
      | None =>
          if Ascii.eqb c "_" && after_digit then digits acc false rest else None
      end
  end.

(** [int(s)] for an ASCII literal: optional blanks, optional sign, digits. *)
Definition parse_int (s : string) : option Z :=
  match strip (list_ascii_of_string s) with
  | "-"%char :: rest => Z.opp <$> digits 0 false rest
  | "+"%char :: rest => digits 0 false rest
  | l => digits 0 false l
  end.

Definition exn_text (e : Exn) : string :=
  match e with
  | TypeError what => "TypeError: " +:+ what
  | ValueError what => what
  | KeyError key => "'" +:+ key +:+ "'"
  | AttributeError what => "AttributeError: " +:+ what
  | RequestException what => what
  | DatabaseError what => what
  | HTTPException code => string_of_Z code +:+ " HTTP error"
  end.

Definition quote : ascii := ascii_of_nat 34.
Definition backslash : ascii := ascii_of_nat 92.

(** The JSON escape of one character; bytes above 127 are refused by this
    runtime. *)
Definition escape_char (c : ascii) : option (list ascii) :=
  let n := N_of_ascii c in
  if (n =? 34)%N then Some [backslash; quote]
  else if (n =? 92)%N then Some [backslash; backslash]
  else if (n =? 10)%N then Some [backslash; "n"%char]
  else if (n =? 13)%N then Some [backslash; "r"%char]
  else if (n =? 9)%N then Some [backslash; "t"%char]
  else if (n =? 8)%N then Some [backslash; "b"%char]
  else if (n =? 12)%N then Some [backslash; "f"%char]
  else if (n <? 32)%N then
    Some ([backslash; "u"%char; "0"%char; "0"%char] ++ SHA256.hex_byte (Z.of_N n))%list
  else if (n <? 128)%N then Some [c]
  else None.

Fixpoint escape (l : list ascii) : option (list ascii) :=
  match l with
  | [] => Some []
  | c :: rest =>
      e ← escape_char c;
      r ← escape rest;
      Some (e ++ r)%list
  end.

Definition json_string (s : string) : option string :=
  e ← escape (list_ascii_of_string s);
  Some (string_of_list_ascii (quote :: e ++ [quote])%list).

Fixpoint insert_member (m : string * string) (l : list (string * string))
  : list (string * string) :=
  match l with
  | [] => [m]
  | m' :: rest =>
      if String.eqb (fst m) (fst m') then m :: rest
      else if String.ltb (fst m) (fst m') then m :: l
      else m' :: insert_member m rest
  end.

(** Members by key, in order; of two members with one key the first
    written, the one a lookup finds, is kept. *)
Definition sort_members (l : list (string * string)) : list (string * string) :=
  fold_right insert_member [] l.

(** [json.dumps(v, separators=(',', ':'), sort_keys=True)] *)
Fixpoint dumps (v : PyVal) : option string :=
  match v with
  | PNone => Some "null"
  | PBool true => Some "true"
  | PBool false => Some "false"
  | PInt z => Some (string_of_Z z)
  | PStr s => json_string s
  | PList l =>
      items ← (fix go (l : list PyVal) : option (list string) :=
                 match l with
                 | [] => Some []
                 | x :: rest => s ← dumps x; r ← go rest; Some (s :: r)
                 end) l;
      Some ("[" +:+ String.concat "," items +:+ "]")
  | PDict kv =>
      members ← (fix go (kv : list (string * PyVal)) : option (list (string * string)) :=
                   match kv with
                   | [] => Some []
                   | (k, x) :: rest =>
                       key ← json_string k;
                       s ← dumps x;
                       r ← go rest;
                       Some ((k, key +:+ ":" +:+ s) :: r)
                   end) kv;
      Some ("{" +:+ String.concat "," (map snd (sort_members members)) +:+ "}")
  end.

#[local] Instance runtime : PyRuntime := {
  int_of_str s :=
    match parse_int s with
    | Some z => Ok z
    | None => Err (ValueError "invalid literal for int() with base 10")
    end;
  exn_str := exn_text;
  py_repr _ := "<object>";
  json_dumps v :=
    match dumps v with
    | Some s => Ok s
    | None => Err (ValueError "text outside ASCII")
    end;
  sql_coerce v :=
    match v with
    | PStr s =>
        match parse_int s with
        | Some z => Ok z
        | None => Err (DatabaseError "invalid integer")
        end
    | _ => Err (DatabaseError "unsupported parameter")
    end
}.

(** A stand-in for the provider's verification that answers [verdict] for
    every payload. *)
Definition verifier (verdict : bool) : Collaborators := {|
  verify_webhook _ _ := Ok verdict;
  url_for e :=
    match e with
    | orders_order_detail order_id => "/orders/" +:+ string_of_Z order_id
    | cart_checkout => "/cart/checkout"
    end
|}.

Definition api : PayOSAPI := {|
  api_key := "key"; client_id := "client"; checksum_key := Some "secret";
  api_base_url := "https://api-merchant.payos.vn"
|}.

Definition no_settings : Settings := {| environ := ∅; app_config := ∅ |}.

Definition order (uid : Z) (s : OrderStatus) : Order := {|
  user_id := uid; total := 150000; status := s;
  payment_method := None; payment_id := PNone
|}.

(** A shop with one order, [id], of user 3, whose cart holds one line. *)
Definition shop (id : Z) (s : OrderStatus) : World := {|
  orders := {[ id := order 3 s ]};
  carts := {[ 3 := [ {| product_id := 11; quantity := 2 |} ] ]};
  cart_clears := [];
  flashes := [];
  api_cache := Some api;
  settings := no_settings
|}.

Definition success_fields (id : Z) (tx : string) : list (string * PyVal) :=
  [ ("orderCode", PInt id); ("status", PStr "success");
    ("transactionId", PStr tx) ].

Definition success_body (id : Z) (tx : string) : PyVal :=
  PDict (success_fields id tx).

End Example_runtime.

(** ** Vocabulary of the statements *)

(** The world after a verified success notification for order [id] of
    user [uid], with transaction reference [tx]. *)
Definition paid_world (id uid : Z) (tx : PyVal) (w : World) : World :=
  clear_cart uid
    (set_orders (alter (with_payment_id tx) id)
       (set_orders (alter (with_status PAID) id) w)).

Definition webhook_ack : Response :=
  JsonResponse 200 (PDict [ ("success", PBool true);
                            ("message", PStr "Webhook processed successfully") ]).

(** What a handler call may do to the order table: nothing, mark one order
    paid with a transaction reference, or, where [cancel] allows it, mark
    one order cancelled. *)
Inductive table_effect (cancel : bool) (t : gmap Z Order) : gmap Z Order -> Prop :=
| table_same : table_effect cancel t t
| table_paid (id : Z) (tx : PyVal) :
    table_effect cancel t
      (alter (with_payment_id tx) id (alter (with_status PAID) id t))
| table_cancelled (id : Z) :
    cancel = true ->
    table_effect cancel t (alter (with_status CANCELLED) id t).

(** The calls that reconcile an order with the provider's outcome. *)
Inductive Invocation : Type :=
| Webhook (request_json : Res PyVal)
| PaymentResult (current_user : option Z) (args : ResultArgs).

Definition is_webhook (i : Invocation) : bool :=
  match i with
  | Webhook _ => true
  | PaymentResult _ _ => false
  end.

Section Runs.
Context `{PyRuntime} `{Collaborators}.

(** The world after one call, and after a sequence of calls in order. *)
Definition invoke (w : World) (i : Invocation) : World :=
  match i with
  | Webhook request_json => snd (webhook request_json w)
  | PaymentResult current_user args => snd (payment_result current_user args w)
  end.

Definition run (calls : list Invocation) (w : World) : World :=
  fold_left invoke calls w.

End Runs.

(** The statuses an order does not leave for CREATED or PROCESSING. *)
Definition settled (s : OrderStatus) : bool :=
  match s with
  | PAID | CANCELLED => true
  | CREATED | PROCESSING => false
  end.

(** One call's effect on an order: none, paid with a transaction reference,
    or, for a webhook only, cancelled. *)
Definition order_step (i : Invocation) (o o' : Order) : Prop :=
  o' = o
  \/ (exists tx, o' = with_payment_id tx (with_status PAID o))
  \/ (is_webhook i = true /\ o' = with_status CANCELLED o).

(** The canonical string of the specification (section 4.1, mode a): the
    pairs key=value of a fixed list of fields of the payload, in that
    order, joined by an ampersand. *)
Definition signed_fields : list string :=
  [ "amount"; "cancelUrl"; "description"; "orderCode"; "returnUrl" ].

Section Canonical.
Context `{PyRuntime}.

Fixpoint key_values (keys : list string) (kv : list (string * PyVal))
  : option (list string) :=
  match keys with
  | [] => Some []
  | k :: rest =>
      v ← assoc k kv;
      r ← key_values rest kv;
      Some ((k +:+ "=" +:+ py_str v) :: r)
  end.

Definition canonical_query (payload : PyVal) : option string :=
  match payload with
  | PDict kv => String.concat "&" <$> key_values signed_fields kv
  | _ => None
  end.

End Canonical.

Module Example_requests.

(** A transport that never reaches the provider. *)
Definition unreachable : Transport :=
  fun _ => Err (RequestException "connection refused").

(** A transport that answers every request with a payment link. *)
Definition accepting : Transport :=
  fun _ =>
    Ok {| status_code := 200;
          text := "";
          json := Ok (PDict [ ("code", PStr "00");
                              ("desc", PStr "success");
                              ("data", PDict [ ("checkoutUrl", PStr "https://pay.payos.vn/web/1");
                                               ("paymentLinkId", PStr "link-1");
                                               ("qrCode", PStr "qr-1") ]) ]) |}.

(** What [request.json] gives for a request with an empty body. *)
Definition no_body : Res PyVal := Err (HTTPException 400).

Definition success_redirect (order_code : string) : ResultArgs := {|
  arg_status := Some "success"; arg_orderCode := Some order_code;
  arg_errorCode := None; arg_transactionId := None
|}.

End Example_requests.

(** ** [services/payment.py]: payment status polling *)

(** The arguments of [requests.get(endpoint, headers=...)]; the call sets
    no timeout. *)
Record GetRequest : Type := {
  get_url : string;
  get_headers : list (string * string)
}.

(** What [verify_payment] reads of the response: [response.status_code],
    the bytes [response.content], and the outcome of [response.json()]. *)
Record GetResponse : Type := {
  got_status_code : Z;
  got_content : list Z;
  got_json : Res PyVal
}.

Definition GetTransport : Type := GetRequest -> Res GetResponse.

Section Polling.
Context `{PyRuntime}.

(** The request that [verify_payment] sends. *)
Definition verify_payment_request (self : PayOSAPI) (payment_id : PyVal)
  : GetRequest :=
  {| get_url := api_base_url self +:+ "/v2/payment-requests/" +:+ py_str payment_id;
     get_headers := [ ("x-client-id", client_id self);
                      ("x-api-key", api_key self) ] |}.

(** The body of the [try] block of [verify_payment]. *)
Definition verify_payment_try (self : PayOSAPI) (get : GetTransport)
    (payment_id : PyVal) : Res PyVal :=
  response ← get (verify_payment_request self payment_id);
  if (got_status_code response =? 200)%Z then
    response_data ← got_json response;
    status ← py_get response_data "status" PNone;
    mret (PDict [ ("success", PBool true);
                  ("status", status);
                  ("payment_data", response_data) ])
  else
    error_data ← (match got_content response with
                  | [] => mret (PDict [ ("message", PStr "Unknown error") ])
                  | _ :: _ => got_json response
                  end);
    error ← py_get error_data "message" (PStr "Payment verification failed");
    mret (PDict [ ("success", PBool false);
                  ("error", error);
                  ("status_code", PInt (got_status_code response)) ]).

(** [PayOSAPI.verify_payment(payment_id)] *)
Definition verify_payment (self : PayOSAPI) (get : GetTransport)
    (payment_id : PyVal) : PyVal :=
  match verify_payment_try self get payment_id with
  | Ok result => result
  | Err e => PDict [ ("success", PBool false);
                     ("error", PStr ("Payment verification error: " +:+ exn_str e)) ]
  end.

End Polling.

(** ** Vocabulary for the effects of the handlers *)

(** The order table, the carts and the record of cart clears are as they
    were. *)
Definition same_store (w w' : World) : Prop :=
  orders w' = orders w /\ carts w' = carts w /\ cart_clears w' = cart_clears w.

(** The three ways a call of [process_payment] by user [U] can end: an
    error answer with the store untouched, a provider payment started for
    an order of [U], or a cash-on-delivery order of [U] placed. *)
Inductive process_outcome (U : Z) (w : World) : Response -> World -> Prop :=
| process_rejected (code : Z) (error : PyVal) (w' : World) :
    code = 400 \/ code = 404 \/ code = 500 ->
    same_store w w' ->
    process_outcome U w
      (JsonResponse code (PDict [ ("success", PBool false); ("error", error) ])) w'
| process_started (id : Z) (o : Order) (url : PyVal) (w' : World) :
    orders w !! id = Some o ->
    user_id o = U ->
    orders w' = alter (with_payment_method "payos") id (orders w) ->
    carts w' = carts w ->
    cart_clears w' = cart_clears w ->
    process_outcome U w
      (JsonResponse 200 (PDict [ ("success", PBool true);
                                 ("redirect_url", url);
                                 ("requires_redirect", PBool true) ])) w'
| process_placed (id : Z) (o : Order) (url : string) (w' : World) :
    orders w !! id = Some o ->
    user_id o = U ->
    orders w' = alter (with_status PROCESSING) id
                  (alter (with_payment_method "cod") id (orders w)) ->
    carts w' = delete U (carts w) ->
    cart_clears w' = U :: cart_clears w ->
    process_outcome U w
      (JsonResponse 200
         (PDict [ ("success", PBool true);
                  ("redirect_url", PStr url);
                  ("requires_redirect", PBool false);
                  ("message", PStr "Your order has been placed successfully!") ])) w'.

(** The ways a call of [webhook] can end: an error answer with the store
    untouched, or an acknowledgment after no change, after the payment of
    one order, or after the cancellation of one order. *)
Inductive webhook_outcome (w : World) : Response -> World -> Prop :=
| webhook_rejected (code : Z) (message : string) (w' : World) :
    code = 400 \/ code = 404 \/ code = 500 ->
    same_store w w' ->
    webhook_outcome w
      (JsonResponse code (PDict [ ("success", PBool false);
                                  ("message", PStr message) ])) w'
| webhook_ignored (w' : World) :
    same_store w w' ->
    webhook_outcome w webhook_ack w'
| webhook_paid (id : Z) (o : Order) (tx : PyVal) (w' : World) :
    orders w !! id = Some o ->
    orders w' = alter (with_payment_id tx) id (alter (with_status PAID) id (orders w)) ->
    carts w' = delete (user_id o) (carts w) ->
    cart_clears w' = user_id o :: cart_clears w ->
    webhook_outcome w webhook_ack w'
| webhook_cancelled (id : Z) (o : Order) (w' : World) :
    orders w !! id = Some o ->
    orders w' = alter (with_status CANCELLED) id (orders w) ->
    carts w' = carts w ->
    cart_clears w' = cart_clears w ->
    webhook_outcome w webhook_ack w'.

(** The requests the three handlers serve. *)
Inductive Call : Type :=
| CallProcess (post : Transport) (current_user : Z) (request_json : Res PyVal)
| CallResult (current_user : option Z) (args : ResultArgs)
| CallWebhook (request_json : Res PyVal).

Section Serving.
Context `{PyRuntime} `{Collaborators}.

Definition serve (w : World) (c : Call) : World :=
  match c with
  | CallProcess post current_user request_json =>
      snd (process_payment post current_user request_json w)
  | CallResult current_user args => snd (payment_result current_user args w)
  | CallWebhook request_json => snd (webhook request_json w)
  end.

Definition serve_all (calls : list Call) (w : World) : World :=
  fold_left serve calls w.

End Serving.

(** The world with other settings: the environment or the configuration
    has changed. *)
Definition set_settings (st : Settings) (w : World) : World :=
  {| orders := orders w; carts := carts w; cart_clears := cart_clears w;
     flashes := flashes w; api_cache := api_cache w; settings := st |}.

Module Example_settings.


Definition without_cache (w : World) (st : Settings) : World :=
  {| orders := orders w; carts := carts w; cart_clears := cart_clears w;
     flashes := flashes w; api_cache := None; settings := st |}.

End Example_settings.

(** The characters of a [hexdigest]. *)
Definition is_lower_hex (c : ascii) : bool :=
  existsb (Ascii.eqb c) (list_ascii_of_string "0123456789abcdef").

Module Example_polling.

(** A provider that does not know the payment: 404 with an empty body. *)
Definition not_found : GetTransport :=
  fun _ => Ok {| got_status_code := 404; got_content := [];
                 got_json := Err (ValueError "Expecting value") |}.

(** A provider that reports the payment as paid. *)
Definition paid : GetTransport :=
  fun _ => Ok {| got_status_code := 200; got_content := [123; 125];
                 got_json := Ok (PDict [ ("status", PStr "PAID") ]) |}.

End Example_polling.

(** The page that [payment_result] renders for a query string. *)
Definition result_page (args : ResultArgs) : Response :=
  RenderResult (default "unknown" (arg_status args))
               (default "" (arg_transactionId args)) (arg_errorCode args).

(** The message that [payment_result] flashes for a status other than
    "success". *)
Definition failure_flash (status : string) (w : World) : World :=
  if String.eqb status "cancel"
  then push_flash "Payment was cancelled." "warning" w
  else push_flash
         "Payment failed. Please try again or choose a different payment method."
         "error" w.
(** * Properties *)

(** ** Test vectors and examples *)

Example K_from_primes :
  length SHA256.K = 64%nat
  /\ forallb (fun pk => SHA256.root_bits 3 (fst pk) (snd pk))
       (combine SHA256.primes SHA256.K) = true
  /\ forallb (fun pk => SHA256.root_bits 2 (fst pk) (snd pk))
       (combine (firstn 8 SHA256.primes) SHA256.H0) = true.
Proof. vm_compute. repeat split; reflexivity. Qed.

Example sha256_abc :
  SHA256.hex (SHA256.digest (encode_utf8 "abc"))
  = "ba7816bf8f01cfea414140de5dae2223b00361a396177a9cb410ff61f20015ad"%string.
Proof. vm_compute. reflexivity. Qed.

Example sha256_two_blocks :
  SHA256.hex (SHA256.digest
    (encode_utf8 "abcdbcdecdefdefgefghfghighijhijkijkljklmklmnlmnomnopnopq"))
  = "248d6a61d20638b8e5c026930c3e6039a33ce45964ff2167f6ecedd419db06c1"%string.
Proof. vm_compute. reflexivity. Qed.

Example hmac_rfc4231_case2 :
  hmac_sha256_hexdigest (encode_utf8 "Jefe")
                        (encode_utf8 "what do ya want for nothing?")
  = "5bdcc146bf60754e6a042426089575c75a003f089d2739839dec58b964ec3843"%string.
Proof. vm_compute. reflexivity. Qed.

Example hmac_rfc4231_long_key :
  hmac_sha256_hexdigest (repeat 0xaa 131)
    (encode_utf8 "Test Using Larger Than Block-Size Key - Hash Key First")
  = "60e431591ee0b67f0d8a26aacbf5b77f8e0bc6213728c5140546040f0ee37f54"%string.
Proof. vm_compute. reflexivity. Qed.

Example string_of_Z_neg : string_of_Z (-42) = "-42".
Proof. reflexivity. Qed.

Example string_of_Z_zero : string_of_Z 0 = "0".
Proof. reflexivity. Qed.

Example parse_int_examples :
  map Example_runtime.parse_int [ "7"; " -12 "; "+1_000"; "007"; ""; "abc"; "1__0"; "5_" ]
  = [ Some 7; Some (-12); Some 1000; Some 7; None; None; None; None ].
Proof. reflexivity. Qed.

Example dumps_example :
  let q := String Example_runtime.quote EmptyString in
  Example_runtime.dumps
    (PDict [ ("status", PStr "success"); ("orderCode", PInt 7);
             ("items", PList [PBool true; PNone]); ("orderCode", PInt 8) ])
  = Some ("{" +:+ q +:+ "items" +:+ q +:+ ":[true,null],"
          +:+ q +:+ "orderCode" +:+ q +:+ ":7,"
          +:+ q +:+ "status" +:+ q +:+ ":" +:+ q +:+ "success" +:+ q +:+ "}").
Proof. vm_compute. reflexivity. Qed.

Example PayOSAPI_init_missing_secret :
  PayOSAPI_init {| environ := {[ "PAYOS_API_KEY" := "k"; "PAYOS_CLIENT_ID" := "c" ]};
                   app_config := {[ "PAYOS_SECRET_KEY" := "" ]} |}
  = Err (ValueError "Missing PAYOS_SECRET_KEY. Please set it in your environment or config.").
Proof. vm_compute. reflexivity. Qed.

Example webhook_scenario_7 :
  let w := Example_runtime.shop 7 CREATED in
  let r := @webhook Example_runtime.runtime (Example_runtime.verifier true)
             (Ok (Example_runtime.success_body 7 "tx-9")) w in
  fst r = JsonResponse 200 (PDict [ ("success", PBool true);
                                    ("message", PStr "Webhook processed successfully") ])
  /\ orders (snd r) !! 7
     = Some (with_payment_id (PStr "tx-9") (with_status PAID (Example_runtime.order 3 CREATED)))
  /\ cart_of (snd r) 3 = []
  /\ cart_clears (snd r) = [3].
Proof. vm_compute. repeat split; reflexivity. Qed.

(** ** Basic facts about results, dictionaries and the world *)

Lemma Res_bind_Ok {A B : Type} (m : Res A) (f : A -> Res B) (b : B) :
  m ≫= f = Ok b -> exists a, m = Ok a /\ f a = Ok b.
Proof. destruct m as [a|e]; simpl; intros Hb; [eauto | discriminate]. Qed.

Lemma assoc_Some_truthy (k : string) (kv : list (string * PyVal)) (v : PyVal) :
  assoc k kv = Some v -> py_truthy (PDict kv) = true.
Proof. destruct kv; [discriminate | reflexivity]. Qed.

Lemma py_get_assoc (k : string) (kv : list (string * PyVal)) (v dflt : PyVal) :
  assoc k kv = Some v -> py_get (PDict kv) k dflt = Ok v.
Proof. intros Hk. simpl. rewrite Hk. reflexivity. Qed.

Lemma py_truthy_PInt (z : Z) : py_truthy (PInt z) = true <-> z <> 0.
Proof. simpl. rewrite negb_true_iff, Z.eqb_neq. reflexivity. Qed.

(** [get_payos_api] touches nothing but the cache, and answers from the
    cache from then on. *)
Lemma get_payos_api_Ok (w w' : World) (api : PayOSAPI) :
  get_payos_api w = (Ok api, w') ->
  w' = set_api_cache api w /\ get_payos_api w' = (Ok api, w').
Proof.
  unfold get_payos_api. destruct w as [os cs cl fl [a|] st]; simpl.
  - intros [= -> <-]. split; reflexivity.
  - destruct (PayOSAPI_init st) as [a|e]; [|discriminate].
    intros [= -> <-]. split; reflexivity.
Qed.

Lemma get_payos_api_cached (w : World) (api : PayOSAPI) :
  api_cache w = Some api -> get_payos_api w = (Ok api, w).
Proof. unfold get_payos_api. intros ->. reflexivity. Qed.

(** A client that [__init__] has built holds a non-empty secret. *)
Lemma PayOSAPI_init_secret (st : Settings) (api : PayOSAPI) :
  PayOSAPI_init st = Ok api ->
  exists k, checksum_key api = Some k /\ k <> "".
Proof.
  unfold PayOSAPI_init.
  destruct (nonempty (env_or_config st "PAYOS_API_KEY")); [|discriminate].
  destruct (nonempty (env_or_config st "PAYOS_CLIENT_ID")); [|discriminate].
  destruct (nonempty (env_or_config st "PAYOS_SECRET_KEY")) as [k|] eqn:Hk;
    [|discriminate].
  intros [= <-]. exists k. split; [reflexivity|].
  unfold nonempty in Hk.
  destruct (env_or_config st "PAYOS_SECRET_KEY") as [secret|]; [|discriminate].
  destruct (String.eqb secret "") eqn:Hs; [discriminate|].
  injection Hk as <-. apply String.eqb_neq. exact Hs.
Qed.

Lemma run_bind {A B : Type} (m : Handler A) (f : A -> Handler B)
    (w w' : World) (a : A) :
  m w = (Ok a, w') -> (m ≫= f) w = f a w'.
Proof. intros Hm. unfold mbind, Handler_bind. rewrite Hm. reflexivity. Qed.

Lemma run_bind_Err {A B : Type} (m : Handler A) (f : A -> Handler B)
    (w w' : World) (e : Exn) :
  m w = (Err e, w') -> (m ≫= f) w = (Err e, w').
Proof. intros Hm. unfold mbind, Handler_bind. rewrite Hm. reflexivity. Qed.

Lemma run_lift {A : Type} (r : Res A) (w : World) : lift r w = (r, w).
Proof. reflexivity. Qed.

(** The first statement of a handler, [request.json], when it returns. *)
Ltac read_json :=
  rewrite (run_bind (lift (Ok _)) _ _ _ _ eq_refl).

Section Webhook_facts.
Context `{PyRuntime} `{Collaborators}.

Lemma webhook_success (w w1 : World) (api : PayOSAPI)
    (kv : list (string * PyVal)) (id : Z) (o : Order) :
  get_payos_api w = (Ok api, w1) ->
  verify_webhook api (PDict kv) = Ok true ->
  assoc "orderCode" kv = Some (PInt id) ->
  assoc "status" kv = Some (PStr "success") ->
  id <> 0 ->
  orders w !! id = Some o ->
  webhook (Ok (PDict kv)) w
  = (webhook_ack,
     paid_world id (user_id o) (default PNone (assoc "transactionId" kv)) w1).
Proof.
  intros Hapi Hver Hoc Hst Hid Ho.
  destruct (get_payos_api_Ok _ _ _ Hapi) as [Hw1 _].
  assert (Ho1 : orders w1 !! id = Some o) by (subst w1; exact Ho).
  unfold webhook, webhook_try. read_json.
  unfold py_not. rewrite (assoc_Some_truthy _ _ _ Hoc). cbn [negb].
  rewrite (run_bind _ _ _ _ _ Hapi).
  rewrite (run_bind _ _ w1 w1 true) by (rewrite <- Hver; reflexivity).
  cbn [negb].
  rewrite (run_bind _ _ w1 w1 (PInt id)) by (rewrite (py_get_assoc _ _ _ _ Hoc); reflexivity).
  rewrite (run_bind _ _ w1 w1 (PStr "success")) by (rewrite (py_get_assoc _ _ _ _ Hst); reflexivity).
  replace (py_truthy (PInt id)) with true by (symmetry; apply py_truthy_PInt, Hid).
  cbn [negb py_truthy String.eqb orb].
  rewrite (run_bind _ _ w1 w1 id) by reflexivity.
  rewrite (run_bind _ _ w1 w1 (Some (id, o))) by (unfold Order_query_get; rewrite Ho1; reflexivity).
  change (py_eq_str (PStr "success") "success") with true.
  reflexivity.
Qed.



Lemma webhook_missing_fields (kv : list (string * PyVal)) (w w1 : World)
    (api : PayOSAPI) :
  py_truthy (PDict kv) = true ->
  get_payos_api w = (Ok api, w1) ->
  verify_webhook api (PDict kv) = Ok true ->
  py_not (default PNone (assoc "orderCode" kv))
  || py_not (default PNone (assoc "status" kv)) = true ->
  webhook (Ok (PDict kv)) w
  = (JsonResponse 400 (PDict [ ("success", PBool false);
                               ("message", PStr "Missing required fields") ]), w1).
Proof.
  intros Hd Hapi Hver Hmiss. unfold webhook, webhook_try. read_json.
  unfold py_not at 1. rewrite Hd. cbn [negb].
  rewrite (run_bind _ _ _ _ _ Hapi).
  rewrite (run_bind _ _ w1 w1 true) by (rewrite <- Hver; reflexivity).
  cbn [negb].
  rewrite (run_bind _ _ w1 w1 (default PNone (assoc "orderCode" kv))) by reflexivity.
  rewrite (run_bind _ _ w1 w1 (default PNone (assoc "status" kv))) by reflexivity.
  rewrite Hmiss. reflexivity.
Qed.


End Webhook_facts.

(** ** Effects of the handlers on the order table *)

Lemma table_effect_lookup (cancel : bool) (t t' : gmap Z Order) (id : Z) (o : Order) :
  table_effect cancel t t' ->
  t !! id = Some o ->
  exists o', t' !! id = Some o'
    /\ (o' = o
        \/ (exists tx, o' = with_payment_id tx (with_status PAID o))
        \/ (cancel = true /\ o' = with_status CANCELLED o)).
Proof.
  intros [ | id0 tx | id0 Hc] Ho.
  - eauto.
  - destruct (decide (id0 = id)) as [->|Hid].
    + rewrite !lookup_alter_eq, Ho. simpl. eauto 6.
    + rewrite !lookup_alter_ne by assumption. eauto.
  - destruct (decide (id0 = id)) as [->|Hid].
    + rewrite lookup_alter_eq, Ho. simpl. eauto 6.
    + rewrite lookup_alter_ne by assumption. eauto.
Qed.

Section Effects.
Context `{PyRuntime} `{Collaborators}.

Lemma webhook_orders (request_json : Res PyVal) (w : World) :
  table_effect true (orders w) (orders (snd (webhook request_json w))).
Proof.
  destruct request_json as [data|e]; [|constructor].
  unfold webhook, webhook_try. read_json.
  destruct (py_not data) eqn:Hd; [constructor|].
  unfold mbind at 1, Handler_bind at 1.
  destruct (get_payos_api w) as [[api|e] w1] eqn:Hapi.
  2:{ unfold get_payos_api in Hapi. repeat case_match; simplify_eq. constructor. }
  destruct (get_payos_api_Ok _ _ _ Hapi) as [Hw1 _].
  replace (orders w) with (orders w1) by (subst w1; reflexivity).
  clear Hapi Hw1.
  unfold mbind at 1, Handler_bind at 1, lift at 1.
  destruct (verify_webhook api data) as [[|]|e]; cbn [negb]; try constructor.
  unfold mbind at 1, Handler_bind at 1, lift at 1.
  destruct data as [ | | | | |kv]; cbn [py_get]; try constructor.
  unfold mbind at 1, Handler_bind at 1, lift at 1.
  destruct (py_not (default PNone (assoc "orderCode" kv))
            || py_not (default PNone (assoc "status" kv))); try constructor.
  unfold mbind at 1, Handler_bind at 1, lift at 1.
  destruct (py_int (default PNone (assoc "orderCode" kv))) as [id|e];
    try constructor.
  unfold mbind at 1, Handler_bind at 1, Order_query_get at 1.
  destruct (orders w1 !! id) as [o|] eqn:Ho;
    cbn [fmap option_fmap option_map]; try constructor.
  destruct (py_eq_str (default PNone (assoc "status" kv)) "success").
  - apply table_paid.
  - destruct (py_eq_str (default PNone (assoc "status" kv)) "failed"
              || py_eq_str (default PNone (assoc "status" kv)) "cancel").
    + apply table_cancelled. reflexivity.
    + constructor.
Qed.

Lemma payment_result_orders (current_user : option Z) (args : ResultArgs) (w : World) :
  table_effect false (orders w) (orders (snd (payment_result current_user args w))).
Proof.
  unfold payment_result.
  destruct (nonempty (arg_orderCode args)) as [order_id|]; [|constructor].
  unfold payment_result_try.
  unfold mbind at 1, Handler_bind at 1, lift at 1.
  destruct (py_int (PStr order_id)) as [id|e]; [|constructor].
  unfold mbind at 1, Handler_bind at 1, Order_query_get at 1.
  destruct (orders w !! id) as [o|] eqn:Ho;
    cbn [fmap option_fmap option_map]; [|constructor].
  destruct (String.eqb (default "unknown" (arg_status args)) "success").
  - destruct (is_owner current_user (user_id o)); apply table_paid.
  - destruct (String.eqb (default "unknown" (arg_status args)) "cancel");
      destruct (is_owner current_user (user_id o)); constructor.
Qed.

Lemma invoke_orders (i : Invocation) (w : World) :
  table_effect (is_webhook i) (orders w) (orders (invoke w i)).
Proof.
  destruct i; [apply webhook_orders | apply payment_result_orders].
Qed.

End Effects.

(** ** The webhook *)

Lemma paid_world_order (id uid : Z) (tx : PyVal) (w : World) (o : Order) :
  orders w !! id = Some o ->
  orders (paid_world id uid tx w) !! id
  = Some (with_payment_id tx (with_status PAID o)).
Proof.
  intros Ho. unfold paid_world. simpl.
  rewrite !lookup_alter_eq, Ho. reflexivity.
Qed.

Lemma paid_world_cart (id uid : Z) (tx : PyVal) (w : World) :
  cart_of (paid_world id uid tx w) uid = [].
Proof. unfold cart_of, paid_world. simpl. rewrite lookup_delete_eq. reflexivity. Qed.

Lemma paid_world_twice (id uid : Z) (tx : PyVal) (w : World) :
  orders (paid_world id uid tx (paid_world id uid tx w))
  = orders (paid_world id uid tx w)
  /\ carts (paid_world id uid tx (paid_world id uid tx w))
     = carts (paid_world id uid tx w).
Proof.
  unfold paid_world. simpl. split.
  - apply map_eq. intros i. destruct (decide (id = i)) as [->|Hi].
    + rewrite !lookup_alter_eq. destruct (orders w !! i); reflexivity.
    + rewrite !lookup_alter_ne by assumption. reflexivity.
  - apply delete_delete_eq.
Qed.

Section Webhook_claims.
Context `{PyRuntime} `{Collaborators}.

(** C1 (amended): for every order with status CREATED whose id N is not
    zero, a webhook whose body carries orderCode N, status "success" and
    transactionId T and whose signature verifies is acknowledged with code
    200 and a JSON body with success true; afterwards the order has status
    PAID, its payment_id is T, and the owner's cart is empty. *)
Theorem webhook_success_marks_paid (w w1 : World) (api : PayOSAPI)
    (kv : list (string * PyVal)) (N : Z) (T : PyVal) (o : Order) :
  orders w !! N = Some o ->
  status o = CREATED ->
  N <> 0 ->
  assoc "orderCode" kv = Some (PInt N) ->
  assoc "status" kv = Some (PStr "success") ->
  assoc "transactionId" kv = Some T ->
  get_payos_api w = (Ok api, w1) ->
  verify_webhook api (PDict kv) = Ok true ->
  exists (ack : list (string * PyVal)) (w' : World) (o' : Order),
    webhook (Ok (PDict kv)) w = (JsonResponse 200 (PDict ack), w')
    /\ assoc "success" ack = Some (PBool true)
    /\ orders w' !! N = Some o'
    /\ status o' = PAID
    /\ payment_id o' = T
    /\ user_id o' = user_id o
    /\ cart_of w' (user_id o) = []
    /\ cart_clears w' = user_id o :: cart_clears w.
Proof.
  intros Ho _ HN Hoc Hst Htx Hapi Hver.
  destruct (get_payos_api_Ok _ _ _ Hapi) as [Hw1 _].
  assert (Ho1 : orders w1 !! N = Some o) by (subst w1; exact Ho).
  eexists _, _, _. split.
  { rewrite (webhook_success w w1 api kv N o Hapi Hver Hoc Hst HN Ho).
    unfold webhook_ack. reflexivity. }
  rewrite Htx. simpl default.
  split; [reflexivity|].
  split; [apply paid_world_order, Ho1|].
  split; [reflexivity|]. split; [reflexivity|]. split; [reflexivity|].
  split; [apply paid_world_cart|].
  subst w1. reflexivity.
Qed.


(** C3 (amended): a verified "success" webhook for an order (of non-zero
    id) whose status is already PAID is acknowledged with success and
    leaves the status PAID, but it runs the same steps as the first
    delivery: payment_id is assigned from the body and the owner's cart
    is cleared once more.  After two successive deliveries of the same
    success webhook the order is PAID, the cart-clear has run twice, and
    the second delivery has left the orders and the carts as the first
    left them. *)
Theorem webhook_success_twice (w w0 : World) (api : PayOSAPI)
    (kv : list (string * PyVal)) (N : Z) (o : Order) :
  orders w !! N = Some o ->
  N <> 0 ->
  assoc "orderCode" kv = Some (PInt N) ->
  assoc "status" kv = Some (PStr "success") ->
  get_payos_api w = (Ok api, w0) ->
  verify_webhook api (PDict kv) = Ok true ->
  let tx := default PNone (assoc "transactionId" kv) in
  let first := webhook (Ok (PDict kv)) w in
  let second := webhook (Ok (PDict kv)) (snd first) in
  fst first = webhook_ack
  /\ fst second = webhook_ack
  /\ orders (snd first) !! N = Some (with_payment_id tx (with_status PAID o))
  /\ orders (snd second) = orders (snd first)
  /\ carts (snd second) = carts (snd first)
  /\ cart_clears (snd first) = user_id o :: cart_clears w
  /\ cart_clears (snd second) = user_id o :: user_id o :: cart_clears w.
Proof.
  intros Ho HN Hoc Hst Hapi Hver tx first second.
  destruct (get_payos_api_Ok _ _ _ Hapi) as [Hw0 Hapi0].
  assert (Ho0 : orders w0 !! N = Some o) by (subst w0; exact Ho).
  assert (Hfirst : first = (webhook_ack, paid_world N (user_id o) tx w0))
    by (apply (webhook_success w w0 api); assumption).
  assert (Ho1 : orders (snd first) !! N
                = Some (with_payment_id tx (with_status PAID o)))
    by (rewrite Hfirst; apply paid_world_order, Ho0).
  assert (Hapi1 : get_payos_api (snd first) = (Ok api, snd first)).
  { rewrite Hfirst. apply (get_payos_api_cached _ api). subst w0. reflexivity. }
  assert (Hsecond : second
                    = (webhook_ack, paid_world N (user_id o) tx (snd first))).
  { unfold second.
    rewrite (webhook_success (snd first) (snd first) api kv N _
               Hapi1 Hver Hoc Hst HN Ho1).
    reflexivity. }
  rewrite Hsecond. rewrite Hfirst in *. simpl fst. simpl snd.
  destruct (paid_world_twice N (user_id o) tx w0) as [Horders Hcarts].
  repeat split; try assumption.
  - subst w0. reflexivity.
  - subst w0. reflexivity.
Qed.

End Webhook_claims.

(** *** Instances and counterexamples for the webhook *)

Lemma webhook_success_marks_paid_witness :
  exists ack w' o',
    @webhook Example_runtime.runtime (Example_runtime.verifier true)
      (Ok (Example_runtime.success_body 7 "tx-9")) (Example_runtime.shop 7 CREATED)
    = (JsonResponse 200 (PDict ack), w')
    /\ assoc "success" ack = Some (PBool true)
    /\ orders w' !! 7 = Some o'
    /\ status o' = PAID
    /\ payment_id o' = PStr "tx-9"
    /\ user_id o' = 3
    /\ cart_of w' 3 = []
    /\ cart_clears w' = [3].
Proof.
  apply (@webhook_success_marks_paid Example_runtime.runtime
           (Example_runtime.verifier true)
           (Example_runtime.shop 7 CREATED) (Example_runtime.shop 7 CREATED)
           Example_runtime.api (Example_runtime.success_fields 7 "tx-9")
           7 (PStr "tx-9")
           (Example_runtime.order 3 CREATED));
    try reflexivity.
  discriminate.
Defined.

(** C1, as stated, fails for an order whose id is 0: the handler reads
    orderCode 0 as a missing field, answers 400, and changes nothing. *)
Lemma webhook_success_order_zero_rejected :
  let w := Example_runtime.shop 0 CREATED in
  let r := @webhook Example_runtime.runtime (Example_runtime.verifier true)
             (Ok (Example_runtime.success_body 0 "tx-9")) w in
  status <$> orders w !! 0 = Some CREATED
  /\ fst r = JsonResponse 400 (PDict [ ("success", PBool false);
                                       ("message", PStr "Missing required fields") ])
  /\ status <$> orders (snd r) !! 0 = Some CREATED
  /\ payment_id <$> orders (snd r) !! 0 = Some PNone
  /\ cart_of (snd r) 3 = [ {| product_id := 11; quantity := 2 |} ].
Proof. vm_compute. repeat split; reflexivity. Qed.



Lemma webhook_success_twice_witness :
  let w := Example_runtime.shop 7 PAID in
  let body := Ok (Example_runtime.success_body 7 "tx-9") in
  let first := @webhook Example_runtime.runtime (Example_runtime.verifier true) body w in
  let second := @webhook Example_runtime.runtime (Example_runtime.verifier true)
                  body (snd first) in
  fst first = webhook_ack
  /\ fst second = webhook_ack
  /\ orders (snd first) !! 7
     = Some (with_payment_id (PStr "tx-9")
               (with_status PAID (Example_runtime.order 3 PAID)))
  /\ orders (snd second) = orders (snd first)
  /\ carts (snd second) = carts (snd first)
  /\ cart_clears (snd first) = [3]
  /\ cart_clears (snd second) = [3; 3].
Proof.
  apply (@webhook_success_twice Example_runtime.runtime
           (Example_runtime.verifier true)
           (Example_runtime.shop 7 PAID) (Example_runtime.shop 7 PAID)
           Example_runtime.api (Example_runtime.success_fields 7 "tx-9")
           7 (Example_runtime.order 3 PAID));
    try reflexivity.
  discriminate.
Defined.

(** C3, as stated, fails: a verified success webhook for an order that is
    already PAID clears the owner's cart and assigns payment_id, and two
    deliveries of one success webhook run the cart-clear twice. *)
Lemma webhook_success_twice_clears_twice :
  let body := Ok (Example_runtime.success_body 7 "tx-9") in
  let deliver := @webhook Example_runtime.runtime (Example_runtime.verifier true) body in
  let paid := Example_runtime.shop 7 PAID in
  let after := snd (deliver paid) in
  let twice := snd (deliver (snd (deliver (Example_runtime.shop 7 CREATED)))) in
  status <$> orders paid !! 7 = Some PAID
  /\ cart_of paid 3 = [ {| product_id := 11; quantity := 2 |} ]
  /\ cart_of after 3 = []
  /\ cart_clears after = [3]
  /\ payment_id <$> orders paid !! 7 = Some PNone
  /\ payment_id <$> orders after !! 7 = Some (PStr "tx-9")
  /\ status <$> orders twice !! 7 = Some PAID
  /\ cart_clears twice = [3; 3].
Proof. vm_compute. repeat split; reflexivity. Qed.

(** ** Sequences of webhook deliveries and payment-result redirects *)

Lemma order_step_settled (i : Invocation) (o o' : Order) :
  order_step i o o' ->
  user_id o' = user_id o
  /\ (settled (status o) = true -> settled (status o') = true)
  /\ (payment_id o' = payment_id o \/ status o' = PAID)
  /\ (status o = PAID -> is_webhook i = false -> status o' = PAID).
Proof.
  intros [-> | [[tx ->] | [Hw ->]]]; simpl; repeat split; auto.
  intros _ Hi. congruence.
Qed.

Section Sequences.
Context `{PyRuntime} `{Collaborators}.

Lemma invoke_order_step (i : Invocation) (w : World) (id : Z) (o : Order) :
  orders w !! id = Some o ->
  exists o', orders (invoke w i) !! id = Some o' /\ order_step i o o'.
Proof.
  intros Ho.
  destruct (table_effect_lookup _ _ _ id o (invoke_orders i w) Ho)
    as (o' & Ho' & Hstep).
  exists o'. split; [exact Ho' | exact Hstep].
Qed.

(** C5 (amended): along every sequence of webhook deliveries and
    payment-result redirects an order stays in the table with its owner,
    and once PAID or CANCELLED it never returns to CREATED or PROCESSING.
    Each further call leaves the order as it is, or sets it PAID and
    assigns payment_id, or (a webhook only) sets it CANCELLED and keeps
    payment_id: payment_id is assigned only by a call that leaves the
    order PAID, and a payment-result redirect never moves an order out of
    PAID. *)
Theorem handler_status_transitions (calls : list Invocation) (w : World)
    (id : Z) (o : Order) :
  orders w !! id = Some o ->
  exists o_now,
    orders (run calls w) !! id = Some o_now
    /\ user_id o_now = user_id o
    /\ (settled (status o) = true -> settled (status o_now) = true)
    /\ forall i : Invocation,
         exists o_next,
           orders (invoke (run calls w) i) !! id = Some o_next
           /\ order_step i o_now o_next
           /\ (payment_id o_next = payment_id o_now \/ status o_next = PAID)
           /\ (status o_now = PAID -> is_webhook i = false ->
               status o_next = PAID).
Proof.
  revert w o. induction calls as [|c calls IH]; intros w o Ho.
  - exists o. simpl. repeat split; auto.
    intros i. destruct (invoke_order_step i w id o Ho) as (o' & Ho' & Hstep).
    exists o'. destruct (order_step_settled i o o' Hstep) as (_ & _ & Hp & Hr).
    auto.
  - destruct (invoke_order_step c w id o Ho) as (o1 & Ho1 & Hstep).
    destruct (order_step_settled c o o1 Hstep) as (Hu & Hs & _ & _).
    destruct (IH (invoke w c) o1 Ho1) as (o_now & Hnow & Hu' & Hs' & Hnext).
    exists o_now. simpl. repeat split; auto; congruence.
Qed.

End Sequences.

Lemma handler_status_transitions_witness :
  let calls := [ Webhook (Ok (Example_runtime.success_body 7 "tx-9"));
                 PaymentResult None
                   {| arg_status := Some "cancel"; arg_orderCode := Some "7";
                      arg_errorCode := None; arg_transactionId := None |} ] in
  let w := Example_runtime.shop 7 CREATED in
  exists o_now,
    orders (@run Example_runtime.runtime (Example_runtime.verifier true) calls w) !! 7
    = Some o_now
    /\ user_id o_now = 3
    /\ (settled CREATED = true -> settled (status o_now) = true)
    /\ forall i : Invocation,
         exists o_next,
           orders (@invoke Example_runtime.runtime (Example_runtime.verifier true)
                     (@run Example_runtime.runtime (Example_runtime.verifier true)
                        calls w) i) !! 7 = Some o_next
           /\ order_step i o_now o_next
           /\ (payment_id o_next = payment_id o_now \/ status o_next = PAID)
           /\ (status o_now = PAID -> is_webhook i = false ->
               status o_next = PAID).
Proof.
  intros calls w.
  apply (@handler_status_transitions Example_runtime.runtime
           (Example_runtime.verifier true) calls w 7
           (Example_runtime.order 3 CREATED)).
  reflexivity.
Defined.

(** C5, as stated, fails: a verified webhook reporting "cancel" moves a
    PAID order to CANCELLED, and a second success notification assigns
    payment_id again. *)
Lemma webhook_cancels_paid_order :
  let run_ := @run Example_runtime.runtime (Example_runtime.verifier true) in
  let cancel :=
    Webhook (Ok (PDict [ ("orderCode", PInt 7); ("status", PStr "cancel") ])) in
  let pay tx := Webhook (Ok (Example_runtime.success_body 7 tx)) in
  let w := Example_runtime.shop 7 CREATED in
  status <$> orders (run_ [pay "tx-1"] w) !! 7 = Some PAID
  /\ status <$> orders (run_ [pay "tx-1"; cancel] w) !! 7 = Some CANCELLED
  /\ payment_id <$> orders (run_ [pay "tx-1"] w) !! 7 = Some (PStr "tx-1")
  /\ payment_id <$> orders (run_ [pay "tx-1"; pay "tx-2"] w) !! 7 = Some (PStr "tx-2").
Proof. vm_compute. repeat split; reflexivity. Qed.

(** ** The PayOS client *)

Lemma hex_length (bs : list Z) :
  String.length (SHA256.hex bs) = (2 * length bs)%nat.
Proof.
  unfold SHA256.hex.
  induction bs as [|b bs IH]; [reflexivity|].
  simpl. simpl in IH. rewrite IH. lia.
Qed.

Lemma be_bytes_length (n : nat) (x : Z) : length (SHA256.be_bytes n x) = n.
Proof.
  revert x. induction n as [|n IH]; intros x; [reflexivity|].
  cbn [SHA256.be_bytes]. rewrite length_app, IH. simpl. lia.
Qed.

Lemma compress_length (h block : list Z) : length (SHA256.compress h block) = 8%nat.
Proof. reflexivity. Qed.

Lemma digest_words_length (msg : list Z) : length (SHA256.digest_words msg) = 8%nat.
Proof.
  unfold SHA256.digest_words.
  generalize (SHA256.chunks (length (SHA256.pad msg)) 64 (SHA256.pad msg)).
  intros blocks.
  assert (Hgen : forall h, length h = 8%nat ->
                           length (fold_left SHA256.compress blocks h) = 8%nat).
  { induction blocks as [|b blocks IH]; intros h Hh; [exact Hh|].
    simpl. apply IH. apply compress_length. }
  apply Hgen. reflexivity.
Qed.

Lemma digest_length (msg : list Z) : length (SHA256.digest msg) = 32%nat.
Proof.
  unfold SHA256.digest.
  pose proof (digest_words_length msg) as Hw.
  destruct (SHA256.digest_words msg) as [|a [|b [|c [|d [|e [|f [|g [|h [|]]]]]]]]];
    try discriminate.
  cbn [flat_map]. rewrite !length_app, !be_bytes_length. reflexivity.
Qed.

(** A hexdigest has sixty-four digits. *)
Lemma hmac_sha256_hexdigest_length (key msg : list Z) :
  String.length (hmac_sha256_hexdigest key msg) = 64%nat.
Proof.
  unfold hmac_sha256_hexdigest, SHA256.hmac.
  rewrite hex_length, digest_length. reflexivity.
Qed.


Section Client_claims.
Context `{PyRuntime}.

(** The two shapes of what [read_payment_response] returns. *)
Lemma read_payment_response_Ok (response : HttpResponse) (result : PyVal) :
  read_payment_response response = Ok result ->
  exists data,
    json response = Ok data
    /\ ((exists url id qr,
           status_code response = 200
           /\ result = PDict [ ("success", PBool true); ("payment_url", url);
                               ("payment_id", id); ("qr_code", qr) ])
        \/ (exists desc,
              result = PDict [ ("success", PBool false); ("error", desc);
                               ("response", data) ])).
Proof.
  unfold read_payment_response. intros Hr.
  apply Res_bind_Ok in Hr as (data & Hjson & Hr).
  exists data. split; [exact Hjson|].
  apply Res_bind_Ok in Hr as (accepted & Hacc & Hr).
  destruct accepted.
  - left.
    destruct (status_code response =? 200)%Z eqn:Hcode;
      [|simpl in Hacc; discriminate].
    apply Z.eqb_eq in Hcode.
    repeat (apply Res_bind_Ok in Hr as (? & ? & Hr)).
    injection Hr as <-. eauto 8.
  - right.
    apply Res_bind_Ok in Hr as (desc & Hdesc & Hr).
    injection Hr as <-. eauto.
Qed.

(** C4: for every client, every behaviour of the transport and all
    arguments, create_payment returns a dictionary with a boolean under
    "success"; when it is false the dictionary has an entry "error"; and
    it is true only if the arguments were numeric, the transport returned
    a response, its status was 200 and its body was JSON. *)
Theorem create_payment_total (self : PayOSAPI) (post : Transport)
    (order_id amount description : PyVal) :
  exists (result : list (string * PyVal)) (success : bool),
    create_payment self post order_id amount description = PDict result
    /\ assoc "success" result = Some (PBool success)
    /\ (if success then
          exists request response data,
            create_payment_request self order_id amount description = Ok request
            /\ post request = Ok response
            /\ status_code response = 200
            /\ json response = Ok data
        else is_Some (assoc "error" result)).
Proof.
  unfold create_payment.
  destruct (create_payment_try self post order_id amount description)
    as [result|e] eqn:Htry.
  - unfold create_payment_try in Htry.
    apply Res_bind_Ok in Htry as (request & Hreq & Htry).
    apply Res_bind_Ok in Htry as (response & Hpost & Hread).
    apply read_payment_response_Ok in Hread
      as (data & Hjson & [(url & id & qr & Hcode & ->) | (desc & ->)]).
    + eexists _, true. split; [reflexivity|]. split; [reflexivity|]. eauto 8.
    + eexists _, false. split; [reflexivity|]. split; [reflexivity|].
      simpl. eauto.
  - eexists _, false. split; [reflexivity|]. split; [reflexivity|].
    simpl. eauto.
Qed.

(** C7: the x-signature header of the request that create_payment sends is
    the hexdigest of HMAC-SHA256, keyed by the UTF-8 bytes of the secret,
    over the UTF-8 bytes of the canonical string of the payload it sends:
    amount, cancelUrl, description, orderCode and returnUrl as key=value,
    in that order, joined by an ampersand. *)
Theorem create_payment_signature (self : PayOSAPI)
    (order_id amount description : PyVal) (request : HttpRequest) :
  create_payment_request self order_id amount description = Ok request ->
  exists (secret canonical : string) (a oc : Z),
    checksum_key self = Some secret
    /\ py_int amount = Ok a
    /\ py_int order_id = Ok oc
    /\ req_json request = payment_data order_id oc a
    /\ canonical_query (req_json request) = Some canonical
    /\ canonical
       = "amount=" +:+ string_of_Z a
         +:+ "&cancelUrl=http://127.0.0.1:5000/payment/cancel"
         +:+ "&description=Order #" +:+ py_str order_id
         +:+ "&orderCode=" +:+ string_of_Z oc
         +:+ "&returnUrl=http://127.0.0.1:5000/payment/success"
    /\ header "x-signature" (req_headers request)
       = Some (hmac_sha256_hexdigest (encode_utf8 secret) (encode_utf8 canonical)).
Proof.
  unfold create_payment_request. intros Hreq.
  apply Res_bind_Ok in Hreq as (a & Ha & Hreq).
  apply Res_bind_Ok in Hreq as (oc & Hoc & Hreq).
  apply Res_bind_Ok in Hreq as (sig_str & Hsig & Hreq).
  apply Res_bind_Ok in Hreq as (key & Hkey & Hreq).
  injection Hreq as <-.
  unfold checksum_key_bytes in Hkey.
  destruct (checksum_key self) as [secret|]; [|discriminate].
  injection Hkey as <-.
  cbn in Hsig. injection Hsig as <-.
  exists secret. eexists. exists a, oc.
  split; [reflexivity|]. split; [exact Ha|]. split; [exact Hoc|].
  split; [reflexivity|].
  split; [reflexivity|].
  cbn [req_headers header String.eqb Ascii.eqb Bool.eqb].
  split; reflexivity.
Qed.

(** C10: create_payment does not read its description argument: for two
    descriptions it builds the same request, payload and signature, and,
    with the same transport, returns the same result; the description
    and the item name of the payload are built from order_id. *)
Theorem create_payment_ignores_description (self : PayOSAPI) (post : Transport)
    (order_id amount d1 d2 : PyVal) :
  create_payment_request self order_id amount d1
  = create_payment_request self order_id amount d2
  /\ create_payment self post order_id amount d1
     = create_payment self post order_id amount d2
  /\ forall oc a : Z,
       py_getitem (payment_data order_id oc a) "description"
       = Ok (PStr ("Order #" +:+ py_str order_id))
       /\ py_getitem (payment_data order_id oc a) "items"
          = Ok (PList [ PDict [ ("name", PStr ("Order #" +:+ py_str order_id));
                                ("price", PInt a); ("quantity", PInt 1) ] ]).
Proof. repeat split; reflexivity. Qed.


End Client_claims.

(** *** The failure paths of create_payment, one by one *)

Section Client_failures.
Context `{PyRuntime}.

Lemma create_payment_bad_amount (self : PayOSAPI) (post : Transport)
    (order_id amount description : PyVal) (e : Exn) :
  py_int amount = Err e ->
  create_payment self post order_id amount description = failure e.
Proof.
  intros He. unfold create_payment, create_payment_try, create_payment_request.
  rewrite He. reflexivity.
Qed.

Lemma create_payment_bad_order_id (self : PayOSAPI) (post : Transport)
    (order_id amount description : PyVal) (a : Z) (e : Exn) :
  py_int amount = Ok a ->
  py_int order_id = Err e ->
  create_payment self post order_id amount description = failure e.
Proof.
  intros Ha He. unfold create_payment, create_payment_try, create_payment_request.
  rewrite Ha. simpl. rewrite He. reflexivity.
Qed.

Lemma create_payment_transport_error (self : PayOSAPI) (post : Transport)
    (order_id amount description : PyVal) (request : HttpRequest) (e : Exn) :
  create_payment_request self order_id amount description = Ok request ->
  post request = Err e ->
  create_payment self post order_id amount description = failure e.
Proof.
  intros Hreq He. unfold create_payment, create_payment_try.
  rewrite Hreq. simpl. rewrite He. reflexivity.
Qed.

Lemma create_payment_malformed_json (self : PayOSAPI) (post : Transport)
    (order_id amount description : PyVal) (request : HttpRequest)
    (response : HttpResponse) (e : Exn) :
  create_payment_request self order_id amount description = Ok request ->
  post request = Ok response ->
  json response = Err e ->
  create_payment self post order_id amount description = failure e.
Proof.
  intros Hreq Hpost He.
  unfold create_payment, create_payment_try, read_payment_response.
  rewrite Hreq. simpl. rewrite Hpost. simpl. rewrite He. reflexivity.
Qed.

Lemma create_payment_not_200 (self : PayOSAPI) (post : Transport)
    (order_id amount description : PyVal) (request : HttpRequest)
    (response : HttpResponse) (kv : list (string * PyVal)) :
  create_payment_request self order_id amount description = Ok request ->
  post request = Ok response ->
  status_code response <> 200 ->
  json response = Ok (PDict kv) ->
  create_payment self post order_id amount description
  = PDict [ ("success", PBool false);
            ("error", default PNone (assoc "desc" kv));
            ("response", PDict kv) ].
Proof.
  intros Hreq Hpost Hcode Hjson.
  unfold create_payment, create_payment_try, read_payment_response.
  rewrite Hreq. simpl. rewrite Hpost. simpl. rewrite Hjson. simpl.
  apply Z.eqb_neq in Hcode. rewrite Hcode. reflexivity.
Qed.

End Client_failures.


(** *** Instances and counterexamples for the client *)

Example create_payment_request_example :
  (r ← @create_payment_request Example_runtime.runtime
         Example_runtime.api (PStr "7") (PInt 150000) (PStr "Payment");
   mret (req_url r, header "x-signature" (req_headers r),
         @canonical_query Example_runtime.runtime (req_json r)))
  = Ok ("https://api-merchant.payos.vn/v2/payment-requests",
        Some "567c080612930f357e7e7b91d66fd180602de20cf5997d69928f80b32bec6916",
        Some ("amount=150000&cancelUrl=http://127.0.0.1:5000/payment/cancel"
              +:+ "&description=Order #7&orderCode=7"
              +:+ "&returnUrl=http://127.0.0.1:5000/payment/success")).
Proof. vm_compute. reflexivity. Qed.

Example create_payment_non_numeric_order_id :
  @create_payment Example_runtime.runtime Example_runtime.api
    (fun _ => Err (RequestException "unreachable")) (PStr "abc") (PInt 150000)
    (PStr "Payment")
  = PDict [ ("success", PBool false);
            ("error", PStr "Exception: invalid literal for int() with base 10") ].
Proof. vm_compute. reflexivity. Qed.

Lemma create_payment_signature_witness :
  exists request,
    @create_payment_request Example_runtime.runtime Example_runtime.api
      (PStr "7") (PInt 150000) (PStr "Payment") = Ok request
    /\ exists (secret canonical : string) (a oc : Z),
         checksum_key Example_runtime.api = Some secret
         /\ @py_int Example_runtime.runtime (PInt 150000) = Ok a
         /\ @py_int Example_runtime.runtime (PStr "7") = Ok oc
         /\ req_json request
            = @payment_data Example_runtime.runtime (PStr "7") oc a
         /\ @canonical_query Example_runtime.runtime (req_json request)
            = Some canonical
         /\ canonical
            = "amount=" +:+ string_of_Z a
              +:+ "&cancelUrl=http://127.0.0.1:5000/payment/cancel"
              +:+ "&description=Order #"
              +:+ @py_str Example_runtime.runtime (PStr "7")
              +:+ "&orderCode=" +:+ string_of_Z oc
              +:+ "&returnUrl=http://127.0.0.1:5000/payment/success"
         /\ header "x-signature" (req_headers request)
            = Some (hmac_sha256_hexdigest (encode_utf8 secret)
                      (encode_utf8 canonical)).
Proof.
  eexists. split; [reflexivity|].
  apply (@create_payment_signature Example_runtime.runtime Example_runtime.api
           (PStr "7") (PInt 150000) (PStr "Payment")).
  reflexivity.
Defined.



(** ** Payment initiation and the payment-result redirect *)

Section Route_claims.
Context `{PyRuntime} `{Collaborators}.

Lemma Order_query_filter_by_other (N U : Z) (w : World) :
  (forall o, orders w !! N = Some o -> user_id o <> U) ->
  Order_query_filter_by (PInt N) U w = (Ok None, w).
Proof.
  intros Hother. unfold Order_query_filter_by.
  rewrite (run_bind _ _ w w N) by reflexivity.
  rewrite (run_bind _ _ w w (pair N <$> orders w !! N)) by reflexivity.
  destruct (orders w !! N) as [o|] eqn:Ho; simpl; [|reflexivity].
  destruct (decide (user_id o = U)) as [Hu|Hu]; [|reflexivity].
  exfalso. exact (Hother o eq_refl Hu).
Qed.

(** C8 (amended): for every authenticated caller U and every order X
    whose id is not zero and which U does not own, whether X belongs to
    another user or does not exist, a POST to /payment/process naming X
    is answered 404 and changes nothing. *)
Theorem process_payment_not_owner (post : Transport) (U : Z)
    (kv : list (string * PyVal)) (N : Z) (w : World) :
  N <> 0 ->
  assoc "order_id" kv = Some (PInt N) ->
  (forall o, orders w !! N = Some o -> user_id o <> U) ->
  process_payment post U (Ok (PDict kv)) w
  = (JsonResponse 404 (PDict [ ("success", PBool false);
                               ("error", PStr "Order not found") ]), w).
Proof.
  intros HN Hid Hother.
  unfold process_payment, process_payment_try. read_json.
  rewrite (assoc_Some_truthy _ _ _ Hid).
  rewrite (run_bind _ _ w w (PInt N))
    by (rewrite (py_get_assoc _ _ _ _ Hid); reflexivity).
  rewrite (run_bind _ _ w w (default (PStr "payos") (assoc "payment_method" kv)))
    by reflexivity.
  unfold py_not.
  replace (py_truthy (PInt N)) with true by (symmetry; apply py_truthy_PInt, HN).
  cbn [negb].
  rewrite (run_bind _ _ w w None) by (apply Order_query_filter_by_other, Hother).
  reflexivity.
Qed.

(** C9: for every existing order with id N, a GET to
    /payment/payment-result with status=success and an orderCode that
    reads as N, from any caller, logged in or not, owner or not, and with
    no signature, sets the order's status to PAID and its payment_id to
    the transactionId parameter (the empty string when absent) and clears
    the cart of the order's owner. *)
Theorem payment_result_success_marks_paid (current_user : option Z)
    (args : ResultArgs) (order_code : string) (N : Z) (w : World) (o : Order) :
  orders w !! N = Some o ->
  arg_status args = Some "success" ->
  arg_orderCode args = Some order_code ->
  order_code <> "" ->
  int_of_str order_code = Ok N ->
  exists (response : Response) (w' : World) (o' : Order),
    payment_result current_user args w = (response, w')
    /\ orders w' !! N = Some o'
    /\ status o' = PAID
    /\ payment_id o' = PStr (default "" (arg_transactionId args))
    /\ user_id o' = user_id o
    /\ cart_of w' (user_id o) = []
    /\ cart_clears w' = user_id o :: cart_clears w.
Proof.
  intros Ho Hst Hoc Hne Hint.
  unfold payment_result. rewrite Hst, Hoc. simpl default.
  assert (Hnon : nonempty (Some order_code) = Some order_code).
  { simpl. destruct (String.eqb order_code "") eqn:He; [|reflexivity].
    apply String.eqb_eq in He. contradiction. }
  rewrite Hnon. unfold payment_result_try.
  rewrite (run_bind _ _ w w N) by (simpl; rewrite Hint; reflexivity).
  rewrite (run_bind _ _ w w (Some (N, o)))
    by (unfold Order_query_get; rewrite Ho; reflexivity).
  change (String.eqb "success" "success") with true. cbv iota.
  set (tx := PStr (default "" (arg_transactionId args))).
  destruct (is_owner current_user (user_id o)) eqn:Hown.
  - exists (Redirect (orders_order_detail N)).
    exists (push_flash "Payment successful! Your order has been confirmed."
              "success" (paid_world N (user_id o) tx w)).
    exists (with_payment_id tx (with_status PAID o)).
    split.
    { reflexivity. }
    split; [simpl; rewrite !lookup_alter_eq, Ho; reflexivity|].
    repeat split.
    unfold cart_of; simpl. rewrite lookup_delete_eq. reflexivity.
  - exists (RenderResult "success" (default "" (arg_transactionId args))
              (arg_errorCode args)).
    exists (paid_world N (user_id o) tx w).
    exists (with_payment_id tx (with_status PAID o)).
    split.
    { reflexivity. }
    split; [apply paid_world_order, Ho|].
    repeat split. apply paid_world_cart.
Qed.

End Route_claims.

(** *** Instances and counterexamples for the routes *)

Example process_payment_cod :
  @process_payment Example_runtime.runtime (Example_runtime.verifier true)
    Example_requests.unreachable 3
    (Ok (PDict [ ("order_id", PInt 7); ("payment_method", PStr "cod") ]))
    (Example_runtime.shop 7 CREATED)
  = (JsonResponse 200
       (PDict [ ("success", PBool true);
                ("redirect_url", PStr "/orders/7");
                ("requires_redirect", PBool false);
                ("message", PStr "Your order has been placed successfully!") ]),
     clear_cart 3
       (set_orders (alter (with_status PROCESSING) 7)
          (set_orders (alter (with_payment_method "cod") 7)
             (Example_runtime.shop 7 CREATED)))).
Proof. vm_compute. reflexivity. Qed.

Example process_payment_payos :
  fst (@process_payment Example_runtime.runtime (Example_runtime.verifier true)
         Example_requests.accepting 3 (Ok (PDict [ ("order_id", PInt 7) ]))
         (Example_runtime.shop 7 CREATED))
  = JsonResponse 200
      (PDict [ ("success", PBool true);
               ("redirect_url", PStr "https://pay.payos.vn/web/1");
               ("requires_redirect", PBool true) ]).
Proof. vm_compute. reflexivity. Qed.

Example process_payment_provider_down :
  @process_payment Example_runtime.runtime (Example_runtime.verifier true)
    Example_requests.unreachable 3 (Ok (PDict [ ("order_id", PInt 7) ]))
    (Example_runtime.shop 7 CREATED)
  = (JsonResponse 400
       (PDict [ ("success", PBool false);
                ("error", PStr "Exception: connection refused") ]),
     Example_runtime.shop 7 CREATED).
Proof. vm_compute. reflexivity. Qed.

Lemma process_payment_not_owner_witness :
  @process_payment Example_runtime.runtime (Example_runtime.verifier true)
    Example_requests.accepting 4 (Ok (PDict [ ("order_id", PInt 7) ]))
    (Example_runtime.shop 7 CREATED)
  = (JsonResponse 404 (PDict [ ("success", PBool false);
                               ("error", PStr "Order not found") ]),
     Example_runtime.shop 7 CREATED).
Proof.
  apply (@process_payment_not_owner Example_runtime.runtime
           (Example_runtime.verifier true) Example_requests.accepting 4
           [ ("order_id", PInt 7) ] 7 (Example_runtime.shop 7 CREATED)).
  - discriminate.
  - reflexivity.
  - intros o Ho. vm_compute in Ho. injection Ho as <-. discriminate.
Defined.

(** C8, as stated, fails for an order whose id is 0: the handler reads
    order_id 0 as missing and answers 400, not 404. *)
Lemma process_payment_order_zero :
  let w := Example_runtime.shop 0 CREATED in
  let r := @process_payment Example_runtime.runtime (Example_runtime.verifier true)
             Example_requests.accepting 4 (Ok (PDict [ ("order_id", PInt 0) ])) w in
  user_id <$> orders w !! 0 = Some 3
  /\ r = (JsonResponse 400 (PDict [ ("success", PBool false);
                                    ("error", PStr "Missing order ID") ]), w).
Proof. vm_compute. repeat split; reflexivity. Qed.

Lemma payment_result_success_marks_paid_witness :
  exists (response : Response) (w' : World) (o' : Order),
    @payment_result Example_runtime.runtime None
      (Example_requests.success_redirect "7") (Example_runtime.shop 7 CREATED)
    = (response, w')
    /\ orders w' !! 7 = Some o'
    /\ status o' = PAID
    /\ payment_id o' = PStr ""
    /\ user_id o' = 3
    /\ cart_of w' 3 = []
    /\ cart_clears w' = [3].
Proof.
  apply (@payment_result_success_marks_paid Example_runtime.runtime None
           (Example_requests.success_redirect "7") "7" 7
           (Example_runtime.shop 7 CREATED) (Example_runtime.order 3 CREATED));
    try reflexivity.
  discriminate.
Defined.

(** * Further properties of the client and of the routes *)

Lemma same_store_refl (w : World) : same_store w w.
Proof. repeat split. Qed.

Lemma same_store_cache (api : PayOSAPI) (w : World) :
  same_store w (set_api_cache api w).
Proof. repeat split. Qed.

Lemma get_payos_api_Err (w w' : World) (e : Exn) :
  get_payos_api w = (Err e, w') ->
  w' = w /\ api_cache w = None /\ PayOSAPI_init (settings w) = Err e.
Proof.
  unfold get_payos_api. destruct (api_cache w); [discriminate|].
  destruct (PayOSAPI_init (settings w)); [discriminate|].
  intros [= <- <-]. auto.
Qed.

Ltac run_handler :=
  lazy beta iota zeta delta
    [mbind Handler_bind lift mret Handler_ret modify commit fst snd
     set_status set_payment_id set_payment_method].

Ltac rejected := run_handler; apply process_rejected; auto.

Section Outcomes.
Context `{PyRuntime} `{Collaborators}.

Lemma process_payment_outcome (post : Transport) (U : Z)
    (request_json : Res PyVal) (w : World) :
  process_outcome U w (fst (process_payment post U request_json w))
                      (snd (process_payment post U request_json w)).
Proof.
  pose proof (same_store_refl w) as Hw.
  destruct request_json as [json|e];
    [|unfold process_payment, process_payment_try; rejected].
  unfold process_payment, process_payment_try. read_json.
  set (data := if py_truthy json then json else PDict []).
  clearbody data.
  run_handler.
  destruct (py_get data "order_id" PNone) as [order_id|e]; [|rejected].
  destruct (py_get data "payment_method" (PStr "payos")) as [method|e];
    [|rejected].
  destruct (py_not order_id); [rejected|].
  unfold Order_query_filter_by. run_handler.
  destruct (bind_id order_id) as [id|e]; [|rejected].
  unfold Order_query_get.
  destruct (orders w !! id) as [o|] eqn:Ho; cbn [fmap option_fmap option_map];
    [|rejected].
  destruct (decide (user_id o = U)) as [Hu|Hu]; [|rejected].
  destruct (py_eq_str method "payos").
  - destruct (get_payos_api w) as [[api|e] w1] eqn:Hapi.
    2:{ apply get_payos_api_Err in Hapi as (-> & _). rejected. }
    apply get_payos_api_Ok in Hapi as [-> _].
    pose proof (same_store_cache api w) as Hw1.
    set (result := create_payment api post _ _ _). clearbody result.
    destruct result as [ | | | | |kv]; cbn [py_get]; try rejected.
    destruct (py_not (default PNone (assoc "success" kv))); [rejected|].
    run_handler.
    apply (process_started U w id o (default PNone (assoc "payment_url" kv)));
      auto.
  - destruct (py_eq_str method "cod"); [|rejected].
    run_handler.
    apply (process_placed U w id o (url_for (orders_order_detail id))); auto.
Qed.

Lemma webhook_outcome_holds (request_json : Res PyVal) (w : World) :
  webhook_outcome w (fst (webhook request_json w))
                    (snd (webhook request_json w)).
Proof.
  pose proof (same_store_refl w) as Hw.
  destruct request_json as [data|e];
    [|unfold webhook, webhook_try; run_handler; eapply webhook_rejected; auto].
  unfold webhook, webhook_try. read_json.
  destruct (py_not data); [run_handler; eapply webhook_rejected; auto|].
  run_handler.
  destruct (get_payos_api w) as [[api|e] w1] eqn:Hapi.
  2:{ apply get_payos_api_Err in Hapi as (-> & _).
      eapply webhook_rejected; auto. }
  apply get_payos_api_Ok in Hapi as [-> _].
  pose proof (same_store_cache api w) as Hw1.
  destruct (verify_webhook api data) as [[|]|e]; cbn [negb];
    [| eapply webhook_rejected; auto | eapply webhook_rejected; auto].
  destruct data as [ | | | | |kv]; cbn [py_get];
    try (eapply webhook_rejected; auto).
  destruct (py_not (default PNone (assoc "orderCode" kv))
            || py_not (default PNone (assoc "status" kv)));
    [eapply webhook_rejected; auto|].
  destruct (py_int (default PNone (assoc "orderCode" kv))) as [id|e];
    [|eapply webhook_rejected; auto].
  unfold Order_query_get. cbn [orders set_api_cache].
  destruct (orders w !! id) as [o|] eqn:Ho; cbn [fmap option_fmap option_map];
    [|eapply webhook_rejected; auto].
  destruct (py_eq_str (default PNone (assoc "status" kv)) "success").
  - apply (webhook_paid w id o (default PNone (assoc "transactionId" kv)));
      auto.
  - destruct (py_eq_str (default PNone (assoc "status" kv)) "failed"
              || py_eq_str (default PNone (assoc "status" kv)) "cancel").
    + apply (webhook_cancelled w id o); auto.
    + apply webhook_ignored; auto.
Qed.

(** The redirect changes the store only by the payment of the order that
    orderCode names, and only for status=success. *)
Lemma payment_result_store (current_user : option Z) (args : ResultArgs)
    (w : World) :
  let w' := snd (payment_result current_user args w) in
  same_store w w'
  \/ (exists id o,
        arg_status args = Some "success"
        /\ orders w !! id = Some o
        /\ orders w'
           = alter (with_payment_id (PStr (default "" (arg_transactionId args)))) id
               (alter (with_status PAID) id (orders w))
        /\ carts w' = delete (user_id o) (carts w)
        /\ cart_clears w' = user_id o :: cart_clears w).
Proof.
  pose proof (same_store_refl w) as Hw.
  unfold payment_result.
  destruct (nonempty (arg_orderCode args)) as [order_id|]; [|left; exact Hw].
  unfold payment_result_try. run_handler.
  destruct (py_int (PStr order_id)) as [id|e]; [|left; exact Hw].
  unfold Order_query_get.
  destruct (orders w !! id) as [o|] eqn:Ho; cbn [fmap option_fmap option_map];
    [|left; exact Hw].
  destruct (arg_status args) as [status|]; cbn [default from_option Datatypes.id].
  - destruct (String.eqb status "success") eqn:Hst.
    + apply String.eqb_eq in Hst as ->.
      right. exists id, o.
      destruct (is_owner current_user (user_id o)); repeat split; auto.
    + left. destruct (String.eqb status "cancel");
        destruct (is_owner current_user (user_id o)); repeat split.
  - left. change (String.eqb "unknown" "success") with false.
    change (String.eqb "unknown" "cancel") with false. cbv iota.
    destruct (is_owner current_user (user_id o)); repeat split.
Qed.

End Outcomes.

(** ** The client: construction, requests and answers *)

Lemma nonempty_Some (o : option string) (s : string) :
  nonempty o = Some s -> o = Some s /\ s <> "".
Proof.
  unfold nonempty. destruct o as [t|]; [|discriminate].
  destruct (String.eqb t "") eqn:Ht; [discriminate|].
  intros [= <-]. split; [reflexivity|]. apply String.eqb_neq. exact Ht.
Qed.

Lemma nonempty_id (s : string) : s <> "" -> nonempty (Some s) = Some s.
Proof.
  intros Hs. unfold nonempty. apply String.eqb_neq in Hs. rewrite Hs. reflexivity.
Qed.

Section Client_extras.
Context `{PyRuntime}.


(** X3: create_payment reports success exactly when the request could be
    built, the transport returned a response with status 200 whose body is
    a JSON object with code "00" and a "data" object holding checkoutUrl,
    paymentLinkId and qrCode.  Whenever these conditions hold the result
    is the dictionary of success True with those three values; and a
    result with success True is returned only when they hold, and is then
    that dictionary. *)
Theorem create_payment_success_iff (self : PayOSAPI) (post : Transport)
    (order_id amount description : PyVal) :
  (forall request response body data url id qr,
     create_payment_request self order_id amount description = Ok request ->
     post request = Ok response ->
     status_code response = 200 ->
     json response = Ok (PDict body) ->
     assoc "code" body = Some (PStr "00") ->
     assoc "data" body = Some (PDict data) ->
     assoc "checkoutUrl" data = Some url ->
     assoc "paymentLinkId" data = Some id ->
     assoc "qrCode" data = Some qr ->
     create_payment self post order_id amount description
     = PDict [ ("success", PBool true); ("payment_url", url);
               ("payment_id", id); ("qr_code", qr) ])
  /\ (forall result,
        create_payment self post order_id amount description = PDict result ->
        assoc "success" result = Some (PBool true) ->
        exists request response body data url id qr,
          create_payment_request self order_id amount description = Ok request
          /\ post request = Ok response
          /\ status_code response = 200
          /\ json response = Ok (PDict body)
          /\ assoc "code" body = Some (PStr "00")
          /\ assoc "data" body = Some (PDict data)
          /\ assoc "checkoutUrl" data = Some url
          /\ assoc "paymentLinkId" data = Some id
          /\ assoc "qrCode" data = Some qr
          /\ result = [ ("success", PBool true); ("payment_url", url);
                        ("payment_id", id); ("qr_code", qr) ]).
Proof.
  split.
  - intros request response body data url id qr Hreq Hpost Hcode Hjson Hc Hd
           Hu Hi Hq.
    unfold create_payment, create_payment_try.
    rewrite Hreq. simpl. rewrite Hpost. simpl.
    unfold read_payment_response. rewrite Hjson, Hcode. simpl.
    rewrite Hc. simpl. rewrite Hd. simpl. rewrite Hu, Hi, Hq. reflexivity.
  - intros result Hres Hsucc. unfold create_payment in Hres.
    destruct (create_payment_try self post order_id amount description)
      as [r|e] eqn:Htry.
    2:{ injection Hres as <-. discriminate. }
    subst r. unfold create_payment_try in Htry.
    apply Res_bind_Ok in Htry as (request & Hreq & Htry).
    apply Res_bind_Ok in Htry as (response & Hpost & Hread).
    unfold read_payment_response in Hread.
    apply Res_bind_Ok in Hread as (response_data & Hjson & Hread).
    apply Res_bind_Ok in Hread as (accepted & Hacc & Hread).
    destruct accepted.
    2:{ apply Res_bind_Ok in Hread as (desc & _ & Hread).
        injection Hread as <-. discriminate. }
    destruct (status_code response =? 200)%Z eqn:Hcode; [|discriminate].
    apply Z.eqb_eq in Hcode.
    apply Res_bind_Ok in Hacc as (code & Hget & Hcode00).
    destruct response_data as [ | | | | |body]; try discriminate.
    simpl in Hget. injection Hget as <-. injection Hcode00 as Hcode00.
    destruct (assoc "code" body) as [[ | | |c| | ]|] eqn:Hc; try discriminate.
    simpl in Hcode00. apply String.eqb_eq in Hcode00 as ->.
    apply Res_bind_Ok in Hread as (d1 & Hd1 & Hread).
    apply Res_bind_Ok in Hread as (url & Hurl & Hread).
    apply Res_bind_Ok in Hread as (d2 & Hd2 & Hread).
    apply Res_bind_Ok in Hread as (id & Hid & Hread).
    apply Res_bind_Ok in Hread as (d3 & Hd3 & Hread).
    apply Res_bind_Ok in Hread as (qr & Hqr & Hread).
    injection Hread as <-.
    simpl in Hd1, Hd2, Hd3.
    destruct (assoc "data" body) as [d|] eqn:Hd; [|discriminate].
    injection Hd1 as <-. injection Hd2 as <-. injection Hd3 as <-.
    destruct d as [ | | | | |data]; try discriminate.
    simpl in Hurl, Hid, Hqr.
    destruct (assoc "checkoutUrl" data) eqn:Hu; [|discriminate].
    destruct (assoc "paymentLinkId" data) eqn:Hi; [|discriminate].
    destruct (assoc "qrCode" data) eqn:Hq; [|discriminate].
    injection Hurl as <-. injection Hid as <-. injection Hqr as <-.
    exists request, response, body, data. eexists _, _, _.
    repeat (split; [eassumption|]). reflexivity.
Qed.

(** X4: when create_payment cannot build its request, because int()
    rejects the amount or the order id or because the client has no
    secret, it contacts no provider: for every transport it returns the
    failure dictionary of that error. *)
Theorem create_payment_sends_nothing (self : PayOSAPI)
    (order_id amount description : PyVal) (e : Exn) :
  create_payment_request self order_id amount description = Err e ->
  (py_int amount = Err e
   \/ (exists a, py_int amount = Ok a /\ py_int order_id = Err e)
   \/ (checksum_key self = None /\ e = AttributeError "encode"))
  /\ forall post : Transport,
       create_payment self post order_id amount description = failure e.
Proof.
  intros Hreq. split.
  - unfold create_payment_request in Hreq.
    destruct (py_int amount) as [a|e1]; [|injection Hreq as <-; auto].
    destruct (py_int order_id) as [oc|e1];
      [|injection Hreq as <-; right; left; eauto].
    right. right. simpl in Hreq.
    unfold checksum_key_bytes in Hreq.
    destruct (checksum_key self); [discriminate|].
    injection Hreq as <-. auto.
  - intros post. unfold create_payment, create_payment_try.
    rewrite Hreq. reflexivity.
Qed.

End Client_extras.

Lemma hex_digit_lower (n : Z) : is_lower_hex (SHA256.hex_digit n) = true.
Proof.
  unfold SHA256.hex_digit.
  assert (Hlt : (Z.to_nat (Z.land n 15) < 16)%nat).
  { change 15 with (Z.ones 4). rewrite Z.land_ones by lia.
    pose proof (Z.mod_pos_bound n (2 ^ 4) ltac:(lia)). lia. }
  change 0xf with 15.
  destruct (Z.to_nat (Z.land n 15)) as [|[|[|[|[|[|[|[|[|[|[|[|[|[|[|[|k]]]]]]]]]]]]]]]];
    try reflexivity.
  lia.
Qed.

Lemma hex_lower (bs : list Z) :
  forallb is_lower_hex (list_ascii_of_string (SHA256.hex bs)) = true.
Proof.
  unfold SHA256.hex. rewrite list_ascii_of_string_of_list_ascii.
  induction bs as [|b bs IH]; [reflexivity|].
  cbn [flat_map SHA256.hex_byte app forallb].
  rewrite !hex_digit_lower, IH. reflexivity.
Qed.

Section Client_extras_2.
Context `{PyRuntime}.

(** X5: the payload of every request that create_payment builds asks for
    int(amount) under the order code int(order_id), and lists one item,
    in quantity 1, whose price is that amount and whose name is the
    payload's description; the request goes to the payment-requests
    endpoint of the base URL with a timeout of 15 seconds. *)
Theorem create_payment_payload_consistent (self : PayOSAPI)
    (order_id amount description : PyVal) (request : HttpRequest) :
  create_payment_request self order_id amount description = Ok request ->
  exists (a oc : Z) (name : PyVal),
    py_int amount = Ok a
    /\ py_int order_id = Ok oc
    /\ py_getitem (req_json request) "amount" = Ok (PInt a)
    /\ py_getitem (req_json request) "orderCode" = Ok (PInt oc)
    /\ py_getitem (req_json request) "description" = Ok name
    /\ py_getitem (req_json request) "items"
       = Ok (PList [ PDict [ ("name", name); ("price", PInt a);
                             ("quantity", PInt 1) ] ])
    /\ req_url request = api_base_url self +:+ "/v2/payment-requests"
    /\ req_timeout request = 15
    /\ header "x-client-id" (req_headers request) = Some (client_id self)
    /\ header "x-api-key" (req_headers request) = Some (api_key self).
Proof.
  unfold create_payment_request. intros Hreq.
  apply Res_bind_Ok in Hreq as (a & Ha & Hreq).
  apply Res_bind_Ok in Hreq as (oc & Hoc & Hreq).
  apply Res_bind_Ok in Hreq as (sig_str & _ & Hreq).
  apply Res_bind_Ok in Hreq as (key & _ & Hreq).
  injection Hreq as <-.
  exists a, oc. eexists. repeat split; try assumption; reflexivity.
Qed.

(** X6: every signature the client produces is made of sixty-four
    lower-case hexadecimal digits: the x-signature header of every request
    that create_payment builds, and every result of _create_signature
    other than the empty string. *)
Theorem signatures_are_hexdigests (self : PayOSAPI) :
  (forall order_id amount description request,
     create_payment_request self order_id amount description = Ok request ->
     exists signature,
       header "x-signature" (req_headers request) = Some signature
       /\ String.length signature = 64%nat
       /\ forallb is_lower_hex (list_ascii_of_string signature) = true)
  /\ (forall data,
        _create_signature self data = ""
        \/ (String.length (_create_signature self data) = 64%nat
            /\ forallb is_lower_hex
                 (list_ascii_of_string (_create_signature self data)) = true)).
Proof.
  split.
  - intros order_id amount description request Hreq.
    unfold create_payment_request in Hreq.
    apply Res_bind_Ok in Hreq as (a & _ & Hreq).
    apply Res_bind_Ok in Hreq as (oc & _ & Hreq).
    apply Res_bind_Ok in Hreq as (sig_str & _ & Hreq).
    apply Res_bind_Ok in Hreq as (key & _ & Hreq).
    injection Hreq as <-.
    eexists. split; [reflexivity|]. split.
    + apply hmac_sha256_hexdigest_length.
    + apply hex_lower.
  - intros data. unfold _create_signature, create_signature_try.
    destruct (nonempty (checksum_key self)) as [key|]; [|left; reflexivity].
    destruct (json_dumps data) as [s|e]; [|left; reflexivity].
    right. simpl. split.
    + apply hmac_sha256_hexdigest_length.
    + apply hex_lower.
Qed.

(** X7: verify_payment raises nothing: it returns a dictionary with a
    boolean under "success".  It is true exactly when the transport
    returned a response with status 200 whose body is a JSON object; the
    result then carries the body and its "status" entry (None when it has
    none).  When it is false the dictionary has an entry "error". *)
Theorem verify_payment_answers (self : PayOSAPI) (get : GetTransport)
    (payment_id : PyVal) :
  exists (result : list (string * PyVal)) (success : bool),
    verify_payment self get payment_id = PDict result
    /\ assoc "success" result = Some (PBool success)
    /\ (if success then True else is_Some (assoc "error" result))
    /\ (success = true
        <-> exists response body,
              get (verify_payment_request self payment_id) = Ok response
              /\ got_status_code response = 200
              /\ got_json response = Ok (PDict body))
    /\ (forall response body,
          get (verify_payment_request self payment_id) = Ok response ->
          got_status_code response = 200 ->
          got_json response = Ok (PDict body) ->
          result = [ ("success", PBool true);
                     ("status", default PNone (assoc "status" body));
                     ("payment_data", PDict body) ]).
Proof.
  unfold verify_payment, verify_payment_try.
  destruct (get (verify_payment_request self payment_id)) as [response|e].
  2:{ eexists _, false. repeat split; simpl; eauto; try discriminate;
        try (intros (r0 & b0 & Hr & _); discriminate). }
  cbn [mbind Res_bind].
  destruct (got_status_code response =? 200)%Z eqn:Hcode.
  - apply Z.eqb_eq in Hcode.
    destruct (got_json response) as [[ | | | | |body]|e] eqn:Hjson;
      cbn [mbind Res_bind py_get mret Res_ret].
    1-5,7: eexists _, false; repeat split; simpl; eauto; try discriminate;
      try (intros (r0 & b0 & Hr & _ & Hj); injection Hr as <-; congruence);
      try (intros r0 b0 Hr _ Hj; injection Hr as <-; congruence).
    eexists _, true. repeat split; simpl; eauto.
    intros r0 b0 Hr _ Hj. injection Hr as <-. rewrite Hjson in Hj.
    injection Hj as <-. reflexivity.
  - apply Z.eqb_neq in Hcode.
    destruct (match got_content response with
              | [] => mret (PDict [ ("message", PStr "Unknown error") ])
              | _ :: _ => got_json response
              end) as [[ | | | | |body]|e];
      cbn [mbind Res_bind py_get mret Res_ret];
      eexists _, false; repeat split; simpl; eauto; try discriminate;
      try (intros (r0 & b0 & Hr & Hs & _); injection Hr as <-; contradiction);
      try (intros r0 b0 Hr Hs _; injection Hr as <-; contradiction).
Qed.

(** X8: when the provider answers the status request with a code other
    than 200, verify_payment attaches that code as "status_code" if it can
    read the answer: an empty body gives the error "Unknown error", a JSON
    object gives its "message" or else "Payment verification failed".  A
    body that is not JSON gives the error of the exception, without
    "status_code". *)
Theorem verify_payment_error_answer (self : PayOSAPI) (get : GetTransport)
    (payment_id : PyVal) (response : GetResponse) :
  get (verify_payment_request self payment_id) = Ok response ->
  got_status_code response <> 200 ->
  (got_content response = [] ->
   verify_payment self get payment_id
   = PDict [ ("success", PBool false); ("error", PStr "Unknown error");
             ("status_code", PInt (got_status_code response)) ])
  /\ (forall body,
        got_content response <> [] ->
        got_json response = Ok (PDict body) ->
        verify_payment self get payment_id
        = PDict [ ("success", PBool false);
                  ("error", default (PStr "Payment verification failed")
                              (assoc "message" body));
                  ("status_code", PInt (got_status_code response)) ])
  /\ (forall e,
        got_content response <> [] ->
        got_json response = Err e ->
        verify_payment self get payment_id
        = PDict [ ("success", PBool false);
                  ("error", PStr ("Payment verification error: " +:+ exn_str e)) ]).
Proof.
  intros Hget Hcode. apply Z.eqb_neq in Hcode.
  unfold verify_payment, verify_payment_try. rewrite Hget.
  cbn [mbind Res_bind]. rewrite Hcode.
  split; [|split].
  - intros ->. reflexivity.
  - intros body Hc Hjson. destruct (got_content response); [contradiction|].
    rewrite Hjson. reflexivity.
  - intros e Hc Hjson. destruct (got_content response); [contradiction|].
    rewrite Hjson. reflexivity.
Qed.

End Client_extras_2.

(** X2: get_payos_api constructs the client at most once.  After a call
    that succeeded, every later call returns the same client and changes
    nothing, whatever has become of the settings.  A construction that
    failed is not remembered: the world is as before, and the next call
    constructs from the settings of that moment. *)
Theorem get_payos_api_constructs_once (w : World) :
  match get_payos_api w with
  | (Ok api, w') =>
      same_store w w'
      /\ forall st, get_payos_api (set_settings st w')
                    = (Ok api, set_settings st w')
  | (Err e, w') =>
      w' = w
      /\ forall st, get_payos_api (set_settings st w')
                    = match PayOSAPI_init st with
                      | Ok api => (Ok api, set_api_cache api (set_settings st w))
                      | Err e' => (Err e', set_settings st w)
                      end
  end.
Proof.
  destruct (get_payos_api w) as [[api|e] w'] eqn:Hget.
  - apply get_payos_api_Ok in Hget as [-> _].
    split; [apply same_store_cache | reflexivity].
  - apply get_payos_api_Err in Hget as (-> & Hnone & _).
    split; [reflexivity|]. intros st.
    unfold get_payos_api. cbn [api_cache set_settings settings]. rewrite Hnone.
    destruct (PayOSAPI_init st); reflexivity.
Qed.

(** *** Instances for the client *)


Lemma create_payment_success_iff_witness :
  let result := [ ("success", PBool true);
                  ("payment_url", PStr "https://pay.payos.vn/web/1");
                  ("payment_id", PStr "link-1"); ("qr_code", PStr "qr-1") ] in
  let call := @create_payment Example_runtime.runtime Example_runtime.api
                Example_requests.accepting (PStr "7") (PInt 150000)
                (PStr "Payment") in
  call = PDict result
  /\ exists request response body data url id qr,
       @create_payment_request Example_runtime.runtime Example_runtime.api
         (PStr "7") (PInt 150000) (PStr "Payment") = Ok request
       /\ Example_requests.accepting request = Ok response
       /\ status_code response = 200
       /\ json response = Ok (PDict body)
       /\ assoc "code" body = Some (PStr "00")
       /\ assoc "data" body = Some (PDict data)
       /\ assoc "checkoutUrl" data = Some url
       /\ assoc "paymentLinkId" data = Some id
       /\ assoc "qrCode" data = Some qr
       /\ result = [ ("success", PBool true); ("payment_url", url);
                     ("payment_id", id); ("qr_code", qr) ].
Proof.
  intros result call.
  pose proof (@create_payment_success_iff Example_runtime.runtime
                Example_runtime.api Example_requests.accepting
                (PStr "7") (PInt 150000) (PStr "Payment")) as [Hgiven Honly].
  assert (Hcall : call = PDict result).
  { unfold call. eapply Hgiven; first [vm_compute; reflexivity | reflexivity]. }
  split; [exact Hcall|].
  apply (Honly result Hcall). reflexivity.
Defined.

Lemma create_payment_sends_nothing_witness :
  let e := ValueError "invalid literal for int() with base 10" in
  @create_payment_request Example_runtime.runtime Example_runtime.api
    (PStr "7a") (PInt 150000) (PStr "Payment") = Err e
  /\ (@py_int Example_runtime.runtime (PInt 150000) = Err e
      \/ (exists a, @py_int Example_runtime.runtime (PInt 150000) = Ok a
                    /\ @py_int Example_runtime.runtime (PStr "7a") = Err e)
      \/ (checksum_key Example_runtime.api = None /\ e = AttributeError "encode"))
  /\ forall post : Transport,
       @create_payment Example_runtime.runtime Example_runtime.api post
         (PStr "7a") (PInt 150000) (PStr "Payment")
       = @failure Example_runtime.runtime e.
Proof.
  intros e. split; [reflexivity|].
  apply (@create_payment_sends_nothing Example_runtime.runtime
           Example_runtime.api (PStr "7a") (PInt 150000) (PStr "Payment") e).
  reflexivity.
Defined.

Lemma create_payment_payload_consistent_witness :
  exists request,
    @create_payment_request Example_runtime.runtime Example_runtime.api
      (PStr "7") (PStr " 150_000 ") PNone = Ok request
    /\ exists (a oc : Z) (name : PyVal),
         @py_int Example_runtime.runtime (PStr " 150_000 ") = Ok a
         /\ @py_int Example_runtime.runtime (PStr "7") = Ok oc
         /\ py_getitem (req_json request) "amount" = Ok (PInt a)
         /\ py_getitem (req_json request) "orderCode" = Ok (PInt oc)
         /\ py_getitem (req_json request) "description" = Ok name
         /\ py_getitem (req_json request) "items"
            = Ok (PList [ PDict [ ("name", name); ("price", PInt a);
                                  ("quantity", PInt 1) ] ])
         /\ req_url request
            = api_base_url Example_runtime.api +:+ "/v2/payment-requests"
         /\ req_timeout request = 15
         /\ header "x-client-id" (req_headers request) = Some "client"
         /\ header "x-api-key" (req_headers request) = Some "key".
Proof.
  eexists. split; [reflexivity|].
  apply (@create_payment_payload_consistent Example_runtime.runtime
           Example_runtime.api (PStr "7") (PStr " 150_000 ") PNone).
  reflexivity.
Defined.

Lemma verify_payment_error_answer_witness :
  let response := {| got_status_code := 404; got_content := [];
                     got_json := Err (ValueError "Expecting value") |} in
  let verify := @verify_payment Example_runtime.runtime Example_runtime.api
                  Example_polling.not_found (PStr "link-1") in
  (got_content response = [] ->
   verify = PDict [ ("success", PBool false); ("error", PStr "Unknown error");
                    ("status_code", PInt 404) ])
  /\ (forall body,
        got_content response <> [] ->
        got_json response = Ok (PDict body) ->
        verify = PDict [ ("success", PBool false);
                         ("error", default (PStr "Payment verification failed")
                                     (assoc "message" body));
                         ("status_code", PInt 404) ])
  /\ (forall e,
        got_content response <> [] ->
        got_json response = Err e ->
        verify = PDict [ ("success", PBool false);
                         ("error", PStr ("Payment verification error: "
                                         +:+ Example_runtime.exn_text e)) ]).
Proof.
  intros response verify.
  apply (@verify_payment_error_answer Example_runtime.runtime Example_runtime.api
           Example_polling.not_found (PStr "link-1") response).
  - reflexivity.
  - discriminate.
Defined.

Example verify_payment_examples :
  @verify_payment Example_runtime.runtime Example_runtime.api
    Example_polling.paid (PStr "link-1")
  = PDict [ ("success", PBool true); ("status", PStr "PAID");
            ("payment_data", PDict [ ("status", PStr "PAID") ]) ]
  /\ @verify_payment Example_runtime.runtime Example_runtime.api
       Example_polling.not_found (PStr "link-1")
     = PDict [ ("success", PBool false); ("error", PStr "Unknown error");
               ("status_code", PInt 404) ]
  /\ get_url (@verify_payment_request Example_runtime.runtime
                Example_runtime.api (PInt 42))
     = "https://api-merchant.payos.vn/v2/payment-requests/42".
Proof. vm_compute. repeat split; reflexivity. Qed.

(** ** The routes: what every call keeps *)

Lemma alter_keeps {A : Type} (f : Order -> Order) (g : Order -> A)
    (i j : Z) (t : gmap Z Order) :
  (forall o, g (f o) = g o) ->
  g <$> alter f i t !! j = g <$> t !! j.
Proof.
  intros Hf. destruct (decide (i = j)) as [->|Hij].
  - rewrite lookup_alter_eq. destruct (t !! j); simpl; [rewrite Hf|]; reflexivity.
  - rewrite lookup_alter_ne by assumption. reflexivity.
Qed.

Section Route_invariants.
Context `{PyRuntime} `{Collaborators}.

(** X9: whatever the body and whatever the provider answers, a call of
    process_payment by user U leaves every order that U does not own
    exactly as it was, leaves every other user's cart as it was, and
    clears U's cart at most once. *)
Theorem process_payment_spares_foreign_orders (post : Transport) (U : Z)
    (request_json : Res PyVal) (w : World) :
  let w' := snd (process_payment post U request_json w) in
  (forall id o, orders w !! id = Some o -> user_id o <> U ->
                orders w' !! id = Some o)
  /\ (forall u, u <> U -> carts w' !! u = carts w !! u)
  /\ (cart_clears w' = cart_clears w \/ cart_clears w' = U :: cart_clears w).
Proof.
  intros w'. subst w'.
  pose proof (process_payment_outcome post U request_json w) as Hout.
  destruct (process_payment post U request_json w) as [r w']. simpl in *.
  destruct Hout as [code error w' _ (Ho & Hc & Hl)
                   | id o url w' Hid Hu Ho Hc Hl
                   | id o url w' Hid Hu Ho Hc Hl].
  - rewrite Ho, Hc, Hl. auto.
  - rewrite Ho, Hc, Hl. repeat split; auto.
    intros j oj Hj Hne. rewrite lookup_alter_ne; [exact Hj|].
    intros <-. congruence.
  - rewrite Ho, Hc, Hl. repeat split; auto.
    + intros j oj Hj Hne. rewrite !lookup_alter_ne; [exact Hj| |];
        intros <-; congruence.
    + intros u Hne. rewrite lookup_delete_ne; auto.
Qed.

(** X10: process_payment always answers with a JSON object and one of the
    codes 200, 400, 404 and 500; its "success" entry is true exactly for
    200; and an answer other than 200 means that no order, no cart and no
    record of a cart clear has changed. *)
Theorem process_payment_error_changes_nothing (post : Transport) (U : Z)
    (request_json : Res PyVal) (w : World) :
  exists code body,
    fst (process_payment post U request_json w) = JsonResponse code (PDict body)
    /\ (code = 200 \/ code = 400 \/ code = 404 \/ code = 500)
    /\ assoc "success" body = Some (PBool (code =? 200)%Z)
    /\ (code <> 200 ->
        same_store w (snd (process_payment post U request_json w))).
Proof.
  pose proof (process_payment_outcome post U request_json w) as Hout.
  destruct (process_payment post U request_json w) as [r w']. simpl in *.
  destruct Hout as [code error w' Hcode Hsame
                   | id o url w' Hid Hu Ho Hc Hl
                   | id o url w' Hid Hu Ho Hc Hl].
  - eexists code, _. split; [reflexivity|]. split; [tauto|].
    split; [|auto].
    destruct Hcode as [-> | [-> | ->]]; reflexivity.
  - eexists 200, _. split; [reflexivity|]. split; [auto|].
    split; [reflexivity | congruence].
  - eexists 200, _. split; [reflexivity|]. split; [auto|].
    split; [reflexivity | congruence].
Qed.

(** X16: webhook always answers with a JSON object and one of the codes
    200, 400, 404 and 500; its "success" entry is true exactly for 200;
    and an answer other than 200 means that no order, no cart and no
    record of a cart clear has changed. *)
Theorem webhook_error_changes_nothing (request_json : Res PyVal) (w : World) :
  exists code body,
    fst (webhook request_json w) = JsonResponse code (PDict body)
    /\ (code = 200 \/ code = 400 \/ code = 404 \/ code = 500)
    /\ assoc "success" body = Some (PBool (code =? 200)%Z)
    /\ (code <> 200 -> same_store w (snd (webhook request_json w))).
Proof.
  pose proof (webhook_outcome_holds request_json w) as Hout.
  destruct (webhook request_json w) as [r w']. simpl in *.
  destruct Hout as [code message w' Hcode Hsame | w' Hsame
                   | id o tx w' Hid Ho Hc Hl | id o w' Hid Ho Hc Hl].
  - eexists code, _. split; [reflexivity|]. split; [tauto|].
    split; [|auto].
    destruct Hcode as [-> | [-> | ->]]; reflexivity.
  - eexists 200, _. split; [reflexivity|]. split; [auto|].
    split; [reflexivity | congruence].
  - eexists 200, _. split; [reflexivity|]. split; [auto|].
    split; [reflexivity | congruence].
  - eexists 200, _. split; [reflexivity|]. split; [auto|].
    split; [reflexivity | congruence].
Qed.

(** X20: one webhook changes at most one order and empties at most one
    cart: there are an order id and a user id such that every other order
    and every other user's cart are exactly as they were. *)
Theorem webhook_changes_one_order (request_json : Res PyVal) (w : World) :
  exists id uid,
    (forall j, j <> id -> orders (snd (webhook request_json w)) !! j = orders w !! j)
    /\ (forall u, u <> uid -> carts (snd (webhook request_json w)) !! u = carts w !! u)
    /\ (carts (snd (webhook request_json w)) !! uid = carts w !! uid
        \/ carts (snd (webhook request_json w)) !! uid = None).
Proof.
  pose proof (webhook_outcome_holds request_json w) as Hout.
  destruct (webhook request_json w) as [r w']. simpl in *.
  destruct Hout as [code message w' Hcode (Ho & Hc & Hl) | w' (Ho & Hc & Hl)
                   | id o tx w' Hid Ho Hc Hl | id o w' Hid Ho Hc Hl].
  - exists 0, 0. rewrite Ho, Hc. auto.
  - exists 0, 0. rewrite Ho, Hc. auto.
  - exists id, (user_id o). rewrite Ho, Hc. repeat split.
    + intros j Hj. rewrite !lookup_alter_ne; auto.
    + intros u Hu. rewrite lookup_delete_ne; auto.
    + right. apply lookup_delete_eq.
  - exists id, 0. rewrite Ho, Hc. repeat split; auto.
    intros j Hj. rewrite lookup_alter_ne; auto.
Qed.

(** X22: a payment-result redirect whose status is not "success" changes
    no order, no cart and no record of a cart clear, whoever sends it. *)
Theorem payment_result_failure_changes_no_order (current_user : option Z)
    (args : ResultArgs) (w : World) :
  arg_status args <> Some "success" ->
  same_store w (snd (payment_result current_user args w)).
Proof.
  intros Hst.
  destruct (payment_result_store current_user args w)
    as [Hsame | (id & o & Hsucc & _)]; [exact Hsame | contradiction].
Qed.

Lemma serve_keeps (c : Call) (w : World) (id : Z) :
  user_id <$> orders (serve w c) !! id = user_id <$> orders w !! id
  /\ total <$> orders (serve w c) !! id = total <$> orders w !! id.
Proof.
  destruct c as [post U body | cu args | data]; cbn [serve].
  - pose proof (process_payment_outcome post U body w) as Hout.
    destruct (process_payment post U body w) as [r w']. simpl in *.
    destruct Hout as [code error w' _ (Ho & _) | i o url w' _ _ Ho _ _
                     | i o url w' _ _ Ho _ _]; rewrite Ho; auto;
      rewrite ?alter_keeps by reflexivity; auto.
  - destruct (payment_result_store cu args w)
      as [(Ho & _) | (i & o & _ & _ & Ho & _)]; rewrite Ho; auto.
    rewrite !alter_keeps by reflexivity. auto.
  - pose proof (webhook_outcome_holds data w) as Hout.
    destruct (webhook data w) as [r w']. simpl in *.
    destruct Hout as [code message w' _ (Ho & _) | w' (Ho & _)
                     | i o tx w' _ Ho _ _ | i o w' _ Ho _ _]; rewrite Ho; auto;
      rewrite ?alter_keeps by reflexivity; auto.
Qed.

Lemma serve_carts (c : Call) (w : World) (u : Z) :
  carts (serve w c) !! u = carts w !! u \/ carts (serve w c) !! u = None.
Proof.
  destruct c as [post U body | cu args | data]; cbn [serve].
  - pose proof (process_payment_outcome post U body w) as Hout.
    destruct (process_payment post U body w) as [r w']. simpl in *.
    destruct Hout as [code error w' _ (_ & Hc & _) | i o url w' _ _ _ Hc _
                     | i o url w' _ _ _ Hc _]; rewrite Hc; auto.
    destruct (decide (U = u)) as [->|Hu];
      [right; apply lookup_delete_eq | left; apply lookup_delete_ne, Hu].
  - destruct (payment_result_store cu args w)
      as [(_ & Hc & _) | (i & o & _ & _ & _ & Hc & _)]; rewrite Hc; auto.
    destruct (decide (user_id o = u)) as [->|Hu];
      [right; apply lookup_delete_eq | left; apply lookup_delete_ne, Hu].
  - pose proof (webhook_outcome_holds data w) as Hout.
    destruct (webhook data w) as [r w']. simpl in *.
    destruct Hout as [code message w' _ (_ & Hc & _) | w' (_ & Hc & _)
                     | i o tx w' _ _ Hc _ | i o w' _ _ Hc _]; rewrite Hc; auto.
    destruct (decide (user_id o = u)) as [->|Hu];
      [right; apply lookup_delete_eq | left; apply lookup_delete_ne, Hu].
Qed.

(** X26: along every sequence of calls of the three handlers no order is
    created or deleted, and no order changes its owner or its total: for
    every id, the owner and the total found under it, if any, are those
    that were there at the start. *)
Theorem serve_all_keeps_orders (calls : list Call) (w : World) (id : Z) :
  user_id <$> orders (serve_all calls w) !! id = user_id <$> orders w !! id
  /\ total <$> orders (serve_all calls w) !! id = total <$> orders w !! id.
Proof.
  revert w. induction calls as [|c calls IH]; intros w; [split; reflexivity|].
  cbn [serve_all fold_left].
  destruct (IH (serve w c)) as [Hu Ht]. destruct (serve_keeps c w id) as [Hu' Ht'].
  unfold serve_all in *. split; congruence.
Qed.

(** X27: no handler ever puts anything into a cart: along every sequence
    of calls of the three handlers each user's cart is either as it was
    at the start or gone. *)
Theorem serve_all_never_fills_carts (calls : list Call) (w : World) (u : Z) :
  carts (serve_all calls w) !! u = carts w !! u
  \/ carts (serve_all calls w) !! u = None.
Proof.
  revert w. induction calls as [|c calls IH]; intros w; [left; reflexivity|].
  cbn [serve_all fold_left].
  destruct (IH (serve w c)) as [Hsame | Hnone]; unfold serve_all in *.
  - rewrite Hsame. apply serve_carts.
  - right. exact Hnone.
Qed.

End Route_invariants.

(** ** The routes: the paths of process_payment *)

Section Process_paths.
Context `{PyRuntime} `{Collaborators}.

Lemma Order_query_filter_by_owner (N : Z) (o : Order) (w : World) :
  orders w !! N = Some o ->
  Order_query_filter_by (PInt N) (user_id o) w = (Ok (Some (N, o)), w).
Proof.
  intros Ho. unfold Order_query_filter_by, Order_query_get. run_handler.
  cbn [bind_id]. rewrite Ho. cbn [fmap option_fmap option_map].
  destruct (decide (user_id o = user_id o)); [reflexivity | contradiction].
Qed.

(** X11: for the owner of an order with non-zero id, a POST to
    /payment/process with payment_method "cod" is answered 200 with
    requires_redirect false and the URL of the order's page; the order
    gets payment_method "cod" and status PROCESSING whatever its status
    was, PAID included, its payment_id stays, the owner's cart is
    cleared, and the provider is not contacted. *)
Theorem process_payment_cod_places_order (post : Transport)
    (kv : list (string * PyVal)) (N : Z) (o : Order) (w : World) :
  N <> 0 ->
  assoc "order_id" kv = Some (PInt N) ->
  assoc "payment_method" kv = Some (PStr "cod") ->
  orders w !! N = Some o ->
  let r := process_payment post (user_id o) (Ok (PDict kv)) w in
  fst r = JsonResponse 200
            (PDict [ ("success", PBool true);
                     ("redirect_url", PStr (url_for (orders_order_detail N)));
                     ("requires_redirect", PBool false);
                     ("message", PStr "Your order has been placed successfully!") ])
  /\ orders (snd r) !! N
     = Some (with_status PROCESSING (with_payment_method "cod" o))
  /\ cart_of (snd r) (user_id o) = []
  /\ cart_clears (snd r) = user_id o :: cart_clears w
  /\ api_cache (snd r) = api_cache w.
Proof.
  intros HN Hid Hm Ho r.
  assert (Hr : r = (JsonResponse 200
                      (PDict [ ("success", PBool true);
                               ("redirect_url", PStr (url_for (orders_order_detail N)));
                               ("requires_redirect", PBool false);
                               ("message", PStr "Your order has been placed successfully!") ]),
                    clear_cart (user_id o)
                      (set_orders (alter (with_status PROCESSING) N)
                         (set_orders (alter (with_payment_method "cod") N) w)))).
  { subst r. unfold process_payment, process_payment_try. read_json.
    rewrite (assoc_Some_truthy _ _ _ Hid).
    rewrite (run_bind _ _ w w (PInt N))
      by (rewrite (py_get_assoc _ _ _ _ Hid); reflexivity).
    rewrite (run_bind _ _ w w (PStr "cod"))
      by (rewrite (py_get_assoc _ _ _ _ Hm); reflexivity).
    unfold py_not.
    replace (py_truthy (PInt N)) with true by (symmetry; apply py_truthy_PInt, HN).
    cbn [negb].
    rewrite (run_bind _ _ w w (Some (N, o)))
      by (apply Order_query_filter_by_owner, Ho).
    change (py_eq_str (PStr "cod") "payos") with false.
    change (py_eq_str (PStr "cod") "cod") with true.
    reflexivity. }
  rewrite Hr. unfold cart_of. simpl.
  split; [reflexivity|].
  split; [rewrite !lookup_alter_eq, Ho; reflexivity|].
  split; [rewrite lookup_delete_eq; reflexivity|].
  split; reflexivity.
Qed.

(** The steps of [process_payment] up to the call of the client, for the
    owner of the order and the provider's payment method. *)
Lemma process_payment_payos_steps (post : Transport)
    (kv : list (string * PyVal)) (N : Z) (o : Order) (w w1 : World)
    (api : PayOSAPI) :
  N <> 0 ->
  assoc "order_id" kv = Some (PInt N) ->
  default (PStr "payos") (assoc "payment_method" kv) = PStr "payos" ->
  orders w !! N = Some o ->
  get_payos_api w = (Ok api, w1) ->
  process_payment post (user_id o) (Ok (PDict kv)) w
  = let result :=
      create_payment api post (PStr (string_of_Z N)) (PInt (total o))
        (PStr ("Payment for order " +:+ string_of_Z N)) in
    match py_get result "success" PNone with
    | Ok success =>
        if py_not success then
          match py_get result "error" (PStr "Payment initialization failed") with
          | Ok error =>
              (JsonResponse 400 (PDict [ ("success", PBool false);
                                         ("error", error) ]), w1)
          | Err _ =>
              (JsonResponse 500
                 (PDict [ ("success", PBool false);
                          ("error", PStr "An error occurred while processing your payment") ]),
               w1)
          end
        else
          match py_get result "payment_url" PNone with
          | Ok url =>
              (JsonResponse 200 (PDict [ ("success", PBool true);
                                         ("redirect_url", url);
                                         ("requires_redirect", PBool true) ]),
               set_orders (alter (with_payment_method "payos") N) w1)
          | Err _ =>
              (JsonResponse 500
                 (PDict [ ("success", PBool false);
                          ("error", PStr "An error occurred while processing your payment") ]),
               set_orders (alter (with_payment_method "payos") N) w1)
          end
    | Err _ =>
        (JsonResponse 500
           (PDict [ ("success", PBool false);
                    ("error", PStr "An error occurred while processing your payment") ]),
         w1)
    end.
Proof.
  intros HN Hid Hm Ho Hapi.
  unfold process_payment, process_payment_try. read_json.
  rewrite (assoc_Some_truthy _ _ _ Hid).
  rewrite (run_bind _ _ w w (PInt N))
    by (rewrite (py_get_assoc _ _ _ _ Hid); reflexivity).
  rewrite (run_bind _ _ w w (PStr "payos"))
    by (cbn [py_get]; rewrite Hm; reflexivity).
  unfold py_not at 1.
  replace (py_truthy (PInt N)) with true by (symmetry; apply py_truthy_PInt, HN).
  cbn [negb].
  rewrite (run_bind _ _ w w (Some (N, o)))
    by (apply Order_query_filter_by_owner, Ho).
  change (py_eq_str (PStr "payos") "payos") with true. cbv iota.
  rewrite (run_bind _ _ _ _ _ Hapi).
  cbn [py_str]. cbv zeta.
  run_handler.
  destruct (py_get _ "success" PNone) as [success|e]; [|reflexivity].
  destruct (py_not success).
  - destruct (py_get _ "error" _); reflexivity.
  - destruct (py_get _ "payment_url" PNone); reflexivity.
Qed.

(** X12: for the owner of an order with non-zero id and the provider's
    payment method (named or by default), when the client reports
    success, the answer is 200 with requires_redirect true and the
    checkout URL of the client's result; the order gets payment_method
    "payos", keeps its status and payment_id, and no cart is cleared.
    The client is called with the order id as text and the order's total
    as amount. *)
Theorem process_payment_starts_payment (post : Transport)
    (kv result : list (string * PyVal)) (N : Z) (o : Order) (w w1 : World)
    (api : PayOSAPI) :
  N <> 0 ->
  assoc "order_id" kv = Some (PInt N) ->
  default (PStr "payos") (assoc "payment_method" kv) = PStr "payos" ->
  orders w !! N = Some o ->
  get_payos_api w = (Ok api, w1) ->
  create_payment api post (PStr (string_of_Z N)) (PInt (total o))
    (PStr ("Payment for order " +:+ string_of_Z N)) = PDict result ->
  assoc "success" result = Some (PBool true) ->
  let r := process_payment post (user_id o) (Ok (PDict kv)) w in
  fst r = JsonResponse 200
            (PDict [ ("success", PBool true);
                     ("redirect_url", default PNone (assoc "payment_url" result));
                     ("requires_redirect", PBool true) ])
  /\ orders (snd r) !! N = Some (with_payment_method "payos" o)
  /\ carts (snd r) = carts w
  /\ cart_clears (snd r) = cart_clears w.
Proof.
  intros HN Hid Hm Ho Hapi Hres Hsucc r. subst r.
  rewrite (process_payment_payos_steps post kv N o w w1 api HN Hid Hm Ho Hapi).
  cbv zeta. rewrite Hres. cbn [py_get]. rewrite Hsucc.
  apply get_payos_api_Ok in Hapi as [-> _].
  cbn. rewrite lookup_alter_eq, Ho. auto.
Qed.

(** X13: for the owner of an order with non-zero id and the provider's
    payment method, when the client reports a failure, the answer is 400
    with the client's error (or "Payment initialization failed" if it
    names none), and no order, no cart and no record of a cart clear
    changes. *)
Theorem process_payment_creation_failed (post : Transport)
    (kv result : list (string * PyVal)) (N : Z) (o : Order) (w w1 : World)
    (api : PayOSAPI) :
  N <> 0 ->
  assoc "order_id" kv = Some (PInt N) ->
  default (PStr "payos") (assoc "payment_method" kv) = PStr "payos" ->
  orders w !! N = Some o ->
  get_payos_api w = (Ok api, w1) ->
  create_payment api post (PStr (string_of_Z N)) (PInt (total o))
    (PStr ("Payment for order " +:+ string_of_Z N)) = PDict result ->
  py_truthy (default PNone (assoc "success" result)) = false ->
  let r := process_payment post (user_id o) (Ok (PDict kv)) w in
  fst r = JsonResponse 400
            (PDict [ ("success", PBool false);
                     ("error", default (PStr "Payment initialization failed")
                                 (assoc "error" result)) ])
  /\ same_store w (snd r).
Proof.
  intros HN Hid Hm Ho Hapi Hres Hfail r. subst r.
  rewrite (process_payment_payos_steps post kv N o w w1 api HN Hid Hm Ho Hapi).
  cbv zeta. rewrite Hres. cbn [py_get]. unfold py_not. rewrite Hfail.
  apply get_payos_api_Ok in Hapi as [-> _].
  split; [reflexivity | apply same_store_cache].
Qed.

(** X14: a POST to /payment/process whose body parses to a falsy JSON
    document (null, the empty object, ...), or to an object whose order_id
    is absent, null, zero or empty, is answered 400 "Missing order ID"; one
    whose body cannot be read as JSON, so that [request.json] raises (an
    empty body is one), is answered 500 "An error occurred while
    processing your payment".  In both cases nothing at all changes,
    whoever the caller is. *)
Theorem process_payment_missing_order_id (post : Transport) (U : Z)
    (json : PyVal) (e : Exn) (w : World) :
  (py_truthy json = false
   \/ (exists kv, json = PDict kv
                  /\ py_truthy (default PNone (assoc "order_id" kv)) = false) ->
   process_payment post U (Ok json) w
   = (JsonResponse 400 (PDict [ ("success", PBool false);
                                ("error", PStr "Missing order ID") ]), w))
  /\ process_payment post U (Err e) w
     = (JsonResponse 500
          (PDict [ ("success", PBool false);
                   ("error", PStr "An error occurred while processing your payment") ]),
        w).
Proof.
  split; [|reflexivity].
  intros [Hempty | (kv & -> & Hid)];
    unfold process_payment, process_payment_try; read_json.
  - rewrite Hempty. reflexivity.
  - destruct (py_truthy (PDict kv)); run_handler; cbn [py_get assoc default];
      unfold py_not; [rewrite Hid|]; reflexivity.
Qed.

(** X15: for the owner of an order with non-zero id, a payment_method
    other than "payos" and "cod" is answered 400 "Invalid payment
    method", and nothing at all changes. *)
Theorem process_payment_invalid_method (post : Transport)
    (kv : list (string * PyVal)) (N : Z) (o : Order) (method : PyVal)
    (w : World) :
  N <> 0 ->
  assoc "order_id" kv = Some (PInt N) ->
  assoc "payment_method" kv = Some method ->
  py_eq_str method "payos" = false ->
  py_eq_str method "cod" = false ->
  orders w !! N = Some o ->
  process_payment post (user_id o) (Ok (PDict kv)) w
  = (JsonResponse 400 (PDict [ ("success", PBool false);
                               ("error", PStr "Invalid payment method") ]), w).
Proof.
  intros HN Hid Hm Hp Hc Ho.
  unfold process_payment, process_payment_try. read_json.
  rewrite (assoc_Some_truthy _ _ _ Hid).
  rewrite (run_bind _ _ w w (PInt N))
    by (rewrite (py_get_assoc _ _ _ _ Hid); reflexivity).
  rewrite (run_bind _ _ w w method)
    by (rewrite (py_get_assoc _ _ _ _ Hm); reflexivity).
  unfold py_not.
  replace (py_truthy (PInt N)) with true by (symmetry; apply py_truthy_PInt, HN).
  cbn [negb].
  rewrite (run_bind _ _ w w (Some (N, o)))
    by (apply Order_query_filter_by_owner, Ho).
  rewrite Hp, Hc. reflexivity.
Qed.

End Process_paths.

(** ** The routes: the other paths of webhook and payment_result *)

Section Webhook_paths.
Context `{PyRuntime} `{Collaborators}.

(** The steps of [webhook] up to the update, for a verified body whose
    orderCode is a non-zero integer and whose status is truthy. *)
Lemma webhook_verified_steps (w w1 : World) (api : PayOSAPI)
    (kv : list (string * PyVal)) (N : Z) (status : PyVal) (o : Order) :
  get_payos_api w = (Ok api, w1) ->
  verify_webhook api (PDict kv) = Ok true ->
  assoc "orderCode" kv = Some (PInt N) ->
  assoc "status" kv = Some status ->
  py_truthy status = true ->
  N <> 0 ->
  orders w !! N = Some o ->
  webhook (Ok (PDict kv)) w
  = (webhook_ack,
     if py_eq_str status "success" then
       paid_world N (user_id o) (default PNone (assoc "transactionId" kv)) w1
     else if py_eq_str status "failed" || py_eq_str status "cancel" then
       set_orders (alter (with_status CANCELLED) N) w1
     else w1).
Proof.
  intros Hapi Hver Hoc Hst Htst HN Ho.
  destruct (get_payos_api_Ok _ _ _ Hapi) as [Hw1 _].
  assert (Ho1 : orders w1 !! N = Some o) by (subst w1; exact Ho).
  unfold webhook, webhook_try. read_json.
  unfold py_not. rewrite (assoc_Some_truthy _ _ _ Hoc). cbn [negb].
  rewrite (run_bind _ _ _ _ _ Hapi).
  rewrite (run_bind _ _ w1 w1 true) by (rewrite <- Hver; reflexivity).
  cbn [negb].
  rewrite (run_bind _ _ w1 w1 (PInt N))
    by (rewrite (py_get_assoc _ _ _ _ Hoc); reflexivity).
  rewrite (run_bind _ _ w1 w1 status)
    by (rewrite (py_get_assoc _ _ _ _ Hst); reflexivity).
  replace (py_truthy (PInt N)) with true by (symmetry; apply py_truthy_PInt, HN).
  rewrite Htst. cbn [negb orb].
  rewrite (run_bind _ _ w1 w1 N) by reflexivity.
  rewrite (run_bind _ _ w1 w1 (Some (N, o)))
    by (unfold Order_query_get; rewrite Ho1; reflexivity).
  destruct (py_eq_str status "success"); [reflexivity|].
  destruct (py_eq_str status "failed" || py_eq_str status "cancel");
    reflexivity.
Qed.

(** X17: a verified webhook that reports "failed" or "cancel" for an
    existing order with non-zero id is acknowledged with success; the
    order becomes CANCELLED whatever its status was, its payment_id
    stays, and no cart is cleared. *)
Theorem webhook_cancel_marks_cancelled (w w1 : World) (api : PayOSAPI)
    (kv : list (string * PyVal)) (N : Z) (status : string) (o : Order) :
  get_payos_api w = (Ok api, w1) ->
  verify_webhook api (PDict kv) = Ok true ->
  assoc "orderCode" kv = Some (PInt N) ->
  assoc "status" kv = Some (PStr status) ->
  status = "failed" \/ status = "cancel" ->
  N <> 0 ->
  orders w !! N = Some o ->
  let r := webhook (Ok (PDict kv)) w in
  fst r = webhook_ack
  /\ orders (snd r) !! N = Some (with_status CANCELLED o)
  /\ (forall j, j <> N -> orders (snd r) !! j = orders w !! j)
  /\ carts (snd r) = carts w
  /\ cart_clears (snd r) = cart_clears w.
Proof.
  intros Hapi Hver Hoc Hst Hcancel HN Ho r. subst r.
  rewrite (webhook_verified_steps w w1 api kv N (PStr status) o
             Hapi Hver Hoc Hst) by (destruct Hcancel as [-> | ->]; auto).
  apply get_payos_api_Ok in Hapi as [-> _].
  destruct Hcancel as [-> | ->]; simpl;
    (split; [reflexivity|]);
    (split; [rewrite lookup_alter_eq, Ho; reflexivity|]);
    (split; [intros j Hj; rewrite lookup_alter_ne; auto|]);
    split; reflexivity.
Qed.

(** X18: a verified webhook for an existing order with non-zero id whose
    status is truthy but none of "success", "failed" and "cancel" is
    acknowledged with success and changes no order, no cart and no
    record of a cart clear. *)
Theorem webhook_unknown_status_acknowledged (w w1 : World) (api : PayOSAPI)
    (kv : list (string * PyVal)) (N : Z) (status : PyVal) (o : Order) :
  get_payos_api w = (Ok api, w1) ->
  verify_webhook api (PDict kv) = Ok true ->
  assoc "orderCode" kv = Some (PInt N) ->
  assoc "status" kv = Some status ->
  py_truthy status = true ->
  py_eq_str status "success" = false ->
  py_eq_str status "failed" = false ->
  py_eq_str status "cancel" = false ->
  N <> 0 ->
  orders w !! N = Some o ->
  fst (webhook (Ok (PDict kv)) w) = webhook_ack
  /\ same_store w (snd (webhook (Ok (PDict kv)) w)).
Proof.
  intros Hapi Hver Hoc Hst Htst Hs Hf Hc HN Ho.
  rewrite (webhook_verified_steps w w1 api kv N status o
             Hapi Hver Hoc Hst Htst HN Ho).
  rewrite Hs, Hf, Hc. simpl.
  apply get_payos_api_Ok in Hapi as [-> _].
  split; [reflexivity | apply same_store_cache].
Qed.

(** X19: while no client is cached and the constructor fails for lack of
    a credential, every webhook whose body parses to a truthy JSON
    document is answered 500 "Error processing webhook", whatever its
    signature; so is every webhook whose body cannot be read as JSON
    (an empty body is one), because [request.json] raises; a body that
    parses to a falsy document (null, the empty object, ...) is answered
    400 "No data received".  In every case nothing at all changes. *)
Theorem webhook_without_credentials (request_json : Res PyVal) (w : World)
    (e : Exn) :
  api_cache w = None ->
  PayOSAPI_init (settings w) = Err e ->
  webhook request_json w
  = (match request_json with
     | Ok data =>
         if py_truthy data then
           JsonResponse 500 (PDict [ ("success", PBool false);
                                     ("message", PStr "Error processing webhook") ])
         else
           JsonResponse 400 (PDict [ ("success", PBool false);
                                     ("message", PStr "No data received") ])
     | Err _ =>
         JsonResponse 500 (PDict [ ("success", PBool false);
                                   ("message", PStr "Error processing webhook") ])
     end,
     w).
Proof.
  intros Hcache Hinit.
  destruct request_json as [data|e']; [|reflexivity].
  unfold webhook, webhook_try. read_json. unfold py_not.
  destruct (py_truthy data); cbn [negb]; [|reflexivity].
  rewrite (run_bind_Err _ _ w w e); [reflexivity|].
  unfold get_payos_api. rewrite Hcache, Hinit. reflexivity.
Qed.

(** X21: a verified webhook whose orderCode is truthy but is not accepted
    by int(), with a truthy status, is answered 500 "Error processing
    webhook" and changes no order, no cart and no record of a cart
    clear. *)
Theorem webhook_non_numeric_order_code (w w1 : World) (api : PayOSAPI)
    (kv : list (string * PyVal)) (order_code status : PyVal) (e : Exn) :
  get_payos_api w = (Ok api, w1) ->
  verify_webhook api (PDict kv) = Ok true ->
  assoc "orderCode" kv = Some order_code ->
  assoc "status" kv = Some status ->
  py_truthy order_code = true ->
  py_truthy status = true ->
  py_int order_code = Err e ->
  fst (webhook (Ok (PDict kv)) w)
  = JsonResponse 500 (PDict [ ("success", PBool false);
                              ("message", PStr "Error processing webhook") ])
  /\ same_store w (snd (webhook (Ok (PDict kv)) w)).
Proof.
  intros Hapi Hver Hoc Hst Htoc Htst Hint.
  unfold webhook, webhook_try. read_json.
  unfold py_not. rewrite (assoc_Some_truthy _ _ _ Hoc). cbn [negb].
  rewrite (run_bind _ _ _ _ _ Hapi).
  rewrite (run_bind _ _ w1 w1 true) by (rewrite <- Hver; reflexivity).
  cbn [negb].
  rewrite (run_bind _ _ w1 w1 order_code)
    by (rewrite (py_get_assoc _ _ _ _ Hoc); reflexivity).
  rewrite (run_bind _ _ w1 w1 status)
    by (rewrite (py_get_assoc _ _ _ _ Hst); reflexivity).
  rewrite Htoc, Htst. cbn [negb orb].
  rewrite (run_bind_Err _ _ w1 w1 e) by (rewrite <- Hint; reflexivity).
  apply get_payos_api_Ok in Hapi as [-> _].
  split; [reflexivity | apply same_store_cache].
Qed.

End Webhook_paths.

Section Result_paths.
Context `{PyRuntime}.

(** The steps of [payment_result] for an orderCode that names an order. *)
Lemma payment_result_resolved (current_user : option Z) (args : ResultArgs)
    (order_code : string) (N : Z) (o : Order) (w : World) :
  arg_orderCode args = Some order_code ->
  order_code <> "" ->
  int_of_str order_code = Ok N ->
  orders w !! N = Some o ->
  payment_result current_user args w
  = let status := default "unknown" (arg_status args) in
    if String.eqb status "success" then
      let w' := paid_world N (user_id o)
                  (PStr (default "" (arg_transactionId args))) w in
      if is_owner current_user (user_id o)
      then (Redirect (orders_order_detail N),
            push_flash "Payment successful! Your order has been confirmed."
              "success" w')
      else (result_page args, w')
    else
      if is_owner current_user (user_id o)
      then (Redirect cart_checkout, failure_flash status w)
      else (result_page args, failure_flash status w).
Proof.
  intros Hoc Hne Hint Ho.
  unfold payment_result. rewrite Hoc, (nonempty_id order_code Hne).
  unfold payment_result_try.
  rewrite (run_bind _ _ w w N) by (simpl; rewrite Hint; reflexivity).
  rewrite (run_bind _ _ w w (Some (N, o)))
    by (unfold Order_query_get; rewrite Ho; reflexivity).
  cbv zeta. unfold failure_flash, result_page.
  destruct (String.eqb (default "unknown" (arg_status args)) "success").
  - destruct (is_owner current_user (user_id o)); reflexivity.
  - destruct (String.eqb (default "unknown" (arg_status args)) "cancel");
      destruct (is_owner current_user (user_id o)); reflexivity.
Qed.

(** X23: payment_result answers with a redirect only to a caller who is
    logged in as the owner of the order that orderCode names; every
    other caller, logged in or not, gets the result page built from the
    query string alone, whether the order exists or not. *)
Theorem payment_result_redirects_only_owner (current_user : option Z)
    (args : ResultArgs) (w : World) :
  fst (payment_result current_user args w) = result_page args
  \/ exists order_code id o,
       arg_orderCode args = Some order_code
       /\ py_int (PStr order_code) = Ok id
       /\ orders w !! id = Some o
       /\ current_user = Some (user_id o)
       /\ fst (payment_result current_user args w)
          = Redirect (if String.eqb (default "unknown" (arg_status args)) "success"
                      then orders_order_detail id else cart_checkout).
Proof.
  unfold payment_result. fold (result_page args).
  destruct (nonempty (arg_orderCode args)) as [order_code|] eqn:Hoc;
    [|left; reflexivity].
  apply nonempty_Some in Hoc as [Hoc _].
  unfold payment_result_try. run_handler.
  destruct (py_int (PStr order_code)) as [id|e] eqn:Hint; [|left; reflexivity].
  unfold Order_query_get.
  destruct (orders w !! id) as [o|] eqn:Ho; cbn [fmap option_fmap option_map];
    [|left; reflexivity].
  destruct (is_owner current_user (user_id o)) eqn:Hown.
  - right. exists order_code, id, o.
    unfold is_owner in Hown. destruct current_user as [u|]; [|discriminate].
    apply bool_decide_eq_true in Hown as ->.
    repeat (split; [assumption || reflexivity|]).
    destruct (String.eqb (default "unknown" (arg_status args)) "success");
      [reflexivity|].
    destruct (String.eqb (default "unknown" (arg_status args)) "cancel");
      reflexivity.
  - left.
    destruct (String.eqb (default "unknown" (arg_status args)) "success");
      [reflexivity|].
    destruct (String.eqb (default "unknown" (arg_status args)) "cancel");
      reflexivity.
Qed.

(** X24: when orderCode is absent or empty, or is not accepted by int(),
    or names no order, payment_result renders the result page and
    nothing at all changes: no order, no cart, no flashed message. *)
Theorem payment_result_unresolved_order (current_user : option Z)
    (args : ResultArgs) (w : World) :
  nonempty (arg_orderCode args) = None
  \/ (exists order_code,
        arg_orderCode args = Some order_code
        /\ ((exists e, py_int (PStr order_code) = Err e)
            \/ (exists id, py_int (PStr order_code) = Ok id
                           /\ orders w !! id = None))) ->
  payment_result current_user args w = (result_page args, w).
Proof.
  unfold payment_result. fold (result_page args).
  intros [Hnone | (order_code & Hoc & Hbad)].
  - rewrite Hnone. reflexivity.
  - rewrite Hoc.
    destruct (nonempty (Some order_code)) as [s|] eqn:Hs; [|reflexivity].
    apply nonempty_Some in Hs as [[= <-] _].
    unfold payment_result_try.
    destruct Hbad as [[e He] | (id & Hid & Ho)].
    + rewrite (run_bind_Err _ _ w w e) by (rewrite <- He; reflexivity).
      reflexivity.
    + rewrite (run_bind _ _ w w id) by (rewrite <- Hid; reflexivity).
      rewrite (run_bind _ _ w w None)
        by (unfold Order_query_get; rewrite Ho; reflexivity).
      reflexivity.
Qed.

(** X25: for a caller logged in as the owner of the order that orderCode
    names, payment_result with status=success marks the order paid,
    flashes the success message and redirects to the order's page; with
    any other status it flashes "Payment was cancelled." for "cancel" and
    the failure message otherwise, redirects to the checkout, and changes
    no order and no cart. *)
Theorem payment_result_owner_redirected (args : ResultArgs)
    (order_code : string) (N : Z) (o : Order) (w : World) :
  arg_orderCode args = Some order_code ->
  order_code <> "" ->
  int_of_str order_code = Ok N ->
  orders w !! N = Some o ->
  payment_result (Some (user_id o)) args w
  = if String.eqb (default "unknown" (arg_status args)) "success"
    then (Redirect (orders_order_detail N),
          push_flash "Payment successful! Your order has been confirmed."
            "success"
            (paid_world N (user_id o)
               (PStr (default "" (arg_transactionId args))) w))
    else (Redirect cart_checkout,
          failure_flash (default "unknown" (arg_status args)) w).
Proof.
  intros Hoc Hne Hint Ho.
  rewrite (payment_result_resolved (Some (user_id o)) args order_code N o w
             Hoc Hne Hint Ho).
  cbv zeta. unfold is_owner. rewrite bool_decide_eq_true_2 by reflexivity.
  reflexivity.
Qed.

End Result_paths.

(** *** Instances for the routes *)

Lemma process_payment_cod_places_order_witness :
  let w := Example_runtime.shop 7 PAID in
  let r := @process_payment Example_runtime.runtime (Example_runtime.verifier true)
             Example_requests.unreachable 3
             (Ok (PDict [ ("order_id", PInt 7); ("payment_method", PStr "cod") ])) w in
  fst r = JsonResponse 200
            (PDict [ ("success", PBool true);
                     ("redirect_url", PStr "/orders/7");
                     ("requires_redirect", PBool false);
                     ("message", PStr "Your order has been placed successfully!") ])
  /\ orders (snd r) !! 7
     = Some (with_status PROCESSING
               (with_payment_method "cod" (Example_runtime.order 3 PAID)))
  /\ cart_of (snd r) 3 = []
  /\ cart_clears (snd r) = [3]
  /\ api_cache (snd r) = api_cache w.
Proof.
  intros w.
  apply (@process_payment_cod_places_order Example_runtime.runtime
           (Example_runtime.verifier true) Example_requests.unreachable
           [ ("order_id", PInt 7); ("payment_method", PStr "cod") ] 7
           (Example_runtime.order 3 PAID) w);
    try reflexivity.
  discriminate.
Defined.

Lemma process_payment_starts_payment_witness :
  let w := Example_runtime.shop 7 CREATED in
  let r := @process_payment Example_runtime.runtime (Example_runtime.verifier true)
             Example_requests.accepting 3 (Ok (PDict [ ("order_id", PInt 7) ])) w in
  fst r = JsonResponse 200
            (PDict [ ("success", PBool true);
                     ("redirect_url", PStr "https://pay.payos.vn/web/1");
                     ("requires_redirect", PBool true) ])
  /\ orders (snd r) !! 7
     = Some (with_payment_method "payos" (Example_runtime.order 3 CREATED))
  /\ carts (snd r) = carts w
  /\ cart_clears (snd r) = cart_clears w.
Proof.
  intros w.
  apply (@process_payment_starts_payment Example_runtime.runtime
           (Example_runtime.verifier true) Example_requests.accepting
           [ ("order_id", PInt 7) ]
           [ ("success", PBool true);
             ("payment_url", PStr "https://pay.payos.vn/web/1");
             ("payment_id", PStr "link-1"); ("qr_code", PStr "qr-1") ]
           7 (Example_runtime.order 3 CREATED) w w Example_runtime.api);
    try reflexivity.
  all: first [discriminate | vm_compute; reflexivity].
Defined.

Lemma process_payment_creation_failed_witness :
  let w := Example_runtime.shop 7 CREATED in
  let r := @process_payment Example_runtime.runtime (Example_runtime.verifier true)
             Example_requests.unreachable 3
             (Ok (PDict [ ("order_id", PInt 7); ("payment_method", PStr "payos") ])) w in
  fst r = JsonResponse 400
            (PDict [ ("success", PBool false);
                     ("error", PStr "Exception: connection refused") ])
  /\ same_store w (snd r).
Proof.
  intros w.
  apply (@process_payment_creation_failed Example_runtime.runtime
           (Example_runtime.verifier true) Example_requests.unreachable
           [ ("order_id", PInt 7); ("payment_method", PStr "payos") ]
           [ ("success", PBool false);
             ("error", PStr "Exception: connection refused") ]
           7 (Example_runtime.order 3 CREATED) w w Example_runtime.api);
    try reflexivity.
  all: first [discriminate | vm_compute; reflexivity].
Defined.

Lemma process_payment_missing_order_id_witness :
  let w := Example_runtime.shop 7 CREATED in
  let missing := JsonResponse 400 (PDict [ ("success", PBool false);
                                           ("error", PStr "Missing order ID") ]) in
  let call := @process_payment Example_runtime.runtime
                (Example_runtime.verifier true) Example_requests.accepting 3 in
  call (Ok PNone) w = (missing, w)
  /\ call (Ok (PDict [ ("payment_method", PStr "cod"); ("order_id", PStr "") ])) w
     = (missing, w)
  /\ call Example_requests.no_body w
     = (JsonResponse 500
          (PDict [ ("success", PBool false);
                   ("error", PStr "An error occurred while processing your payment") ]),
        w).
Proof.
  intros w missing call. split; [|split].
  - apply (proj1 (@process_payment_missing_order_id Example_runtime.runtime
                    (Example_runtime.verifier true) Example_requests.accepting 3
                    PNone (HTTPException 400) w)).
    left. reflexivity.
  - apply (proj1 (@process_payment_missing_order_id Example_runtime.runtime
                    (Example_runtime.verifier true) Example_requests.accepting 3
                    (PDict [ ("payment_method", PStr "cod"); ("order_id", PStr "") ])
                    (HTTPException 400) w)).
    right. eexists. split; reflexivity.
  - apply (proj2 (@process_payment_missing_order_id Example_runtime.runtime
                    (Example_runtime.verifier true) Example_requests.accepting 3
                    PNone (HTTPException 400) w)).
Defined.

Lemma process_payment_invalid_method_witness :
  let w := Example_runtime.shop 7 CREATED in
  @process_payment Example_runtime.runtime (Example_runtime.verifier true)
    Example_requests.accepting 3
    (Ok (PDict [ ("order_id", PInt 7); ("payment_method", PStr "card") ])) w
  = (JsonResponse 400 (PDict [ ("success", PBool false);
                               ("error", PStr "Invalid payment method") ]), w).
Proof.
  intros w.
  apply (@process_payment_invalid_method Example_runtime.runtime
           (Example_runtime.verifier true) Example_requests.accepting
           [ ("order_id", PInt 7); ("payment_method", PStr "card") ] 7
           (Example_runtime.order 3 CREATED) (PStr "card") w);
    try reflexivity.
  discriminate.
Defined.

Lemma webhook_cancel_marks_cancelled_witness :
  let w := Example_runtime.shop 7 PAID in
  let r := @webhook Example_runtime.runtime (Example_runtime.verifier true)
             (Ok (PDict [ ("orderCode", PInt 7); ("status", PStr "failed") ])) w in
  fst r = webhook_ack
  /\ orders (snd r) !! 7 = Some (with_status CANCELLED (Example_runtime.order 3 PAID))
  /\ (forall j, j <> 7 -> orders (snd r) !! j = orders w !! j)
  /\ carts (snd r) = carts w
  /\ cart_clears (snd r) = cart_clears w.
Proof.
  intros w.
  apply (@webhook_cancel_marks_cancelled Example_runtime.runtime
           (Example_runtime.verifier true) w w Example_runtime.api
           [ ("orderCode", PInt 7); ("status", PStr "failed") ] 7 "failed"
           (Example_runtime.order 3 PAID));
    try reflexivity.
  all: first [discriminate | left; reflexivity].
Defined.

Lemma webhook_unknown_status_acknowledged_witness :
  let w := Example_runtime.shop 7 CREATED in
  let body := Ok (PDict [ ("orderCode", PInt 7); ("status", PStr "pending") ]) in
  fst (@webhook Example_runtime.runtime (Example_runtime.verifier true) body w)
  = webhook_ack
  /\ same_store w
       (snd (@webhook Example_runtime.runtime (Example_runtime.verifier true) body w)).
Proof.
  intros w body.
  apply (@webhook_unknown_status_acknowledged Example_runtime.runtime
           (Example_runtime.verifier true) w w Example_runtime.api
           [ ("orderCode", PInt 7); ("status", PStr "pending") ] 7
           (PStr "pending") (Example_runtime.order 3 CREATED));
    try reflexivity.
  discriminate.
Defined.

Lemma webhook_without_credentials_witness :
  let w := Example_settings.without_cache (Example_runtime.shop 7 CREATED)
             Example_runtime.no_settings in
  let deliver := @webhook Example_runtime.runtime (Example_runtime.verifier true) in
  let failed := JsonResponse 500 (PDict [ ("success", PBool false);
                                          ("message", PStr "Error processing webhook") ]) in
  deliver (Ok (Example_runtime.success_body 7 "tx-9")) w = (failed, w)
  /\ deliver Example_requests.no_body w = (failed, w)
  /\ deliver (Ok (PDict [])) w
     = (JsonResponse 400 (PDict [ ("success", PBool false);
                                  ("message", PStr "No data received") ]), w).
Proof.
  intros w deliver failed. split; [|split].
  - apply (@webhook_without_credentials Example_runtime.runtime
             (Example_runtime.verifier true)
             (Ok (Example_runtime.success_body 7 "tx-9")) w
             (ValueError "Missing PAYOS_API_KEY. Please set it in your environment or config."));
      reflexivity.
  - apply (@webhook_without_credentials Example_runtime.runtime
             (Example_runtime.verifier true) Example_requests.no_body w
             (ValueError "Missing PAYOS_API_KEY. Please set it in your environment or config."));
      reflexivity.
  - apply (@webhook_without_credentials Example_runtime.runtime
             (Example_runtime.verifier true) (Ok (PDict [])) w
             (ValueError "Missing PAYOS_API_KEY. Please set it in your environment or config."));
      reflexivity.
Defined.

Lemma webhook_non_numeric_order_code_witness :
  let w := Example_runtime.shop 7 CREATED in
  let body := Ok (PDict [ ("orderCode", PStr "seven"); ("status", PStr "success") ]) in
  fst (@webhook Example_runtime.runtime (Example_runtime.verifier true) body w)
  = JsonResponse 500 (PDict [ ("success", PBool false);
                              ("message", PStr "Error processing webhook") ])
  /\ same_store w
       (snd (@webhook Example_runtime.runtime (Example_runtime.verifier true) body w)).
Proof.
  intros w body.
  apply (@webhook_non_numeric_order_code Example_runtime.runtime
           (Example_runtime.verifier true) w w Example_runtime.api
           [ ("orderCode", PStr "seven"); ("status", PStr "success") ]
           (PStr "seven") (PStr "success")
           (ValueError "invalid literal for int() with base 10"));
    reflexivity.
Defined.

Lemma payment_result_failure_changes_no_order_witness :
  let w := Example_runtime.shop 7 CREATED in
  let args := {| arg_status := Some "cancel"; arg_orderCode := Some "7";
                 arg_errorCode := None; arg_transactionId := None |} in
  same_store w (snd (@payment_result Example_runtime.runtime (Some 3) args w)).
Proof.
  intros w args.
  apply (@payment_result_failure_changes_no_order Example_runtime.runtime
           (Some 3) args w).
  discriminate.
Defined.

Lemma payment_result_unresolved_order_witness :
  let w := Example_runtime.shop 7 CREATED in
  @payment_result Example_runtime.runtime (Some 3)
    (Example_requests.success_redirect "8") w
  = (result_page (Example_requests.success_redirect "8"), w)
  /\ @payment_result Example_runtime.runtime (Some 3)
       (Example_requests.success_redirect "7; drop") w
     = (result_page (Example_requests.success_redirect "7; drop"), w).
Proof.
  intros w. split.
  - apply (@payment_result_unresolved_order Example_runtime.runtime (Some 3)
             (Example_requests.success_redirect "8") w).
    right. exists "8". split; [reflexivity|]. right. exists 8. split; reflexivity.
  - apply (@payment_result_unresolved_order Example_runtime.runtime (Some 3)
             (Example_requests.success_redirect "7; drop") w).
    right. exists "7; drop". split; [reflexivity|]. left. eexists. reflexivity.
Defined.

Lemma payment_result_owner_redirected_witness :
  let w := Example_runtime.shop 7 CREATED in
  let args := {| arg_status := Some "cancel"; arg_orderCode := Some "7";
                 arg_errorCode := None; arg_transactionId := None |} in
  @payment_result Example_runtime.runtime (Some 3) args w
  = (Redirect cart_checkout, push_flash "Payment was cancelled." "warning" w).
Proof.
  intros w args.
  apply (@payment_result_owner_redirected Example_runtime.runtime args "7" 7
           (Example_runtime.order 3 CREATED) w);
    try reflexivity.
  discriminate.
Defined.
